(** * Synthetic transaction generator: model and verification

    A shallow embedding of the data generators of the fraud-detection
    repository:

    - [backend/data_generators/config.py]              (Module [Config])
    - [backend/data_generators/models/transaction.py]  (Modules [User],
      [Merchant], [Transaction])
    - [backend/data_generators/generator.py]           (Module
      [TransactionGenerator])
    - [backend/data_generators/fraud_patterns.py]      (Module
      [FraudPatternGenerator])

    Modelling conventions.

    - Python [float] values are exact rationals ([Q]); the decimal literals
      of the source are the rationals they denote.  [round(x, 2)] rounds to
      the nearest hundredth, ties to even.
    - The ambient sources of non-determinism (the [random] module,
      [uuid.uuid4], the Faker instance and [datetime.now]) are oracle
      streams carried by a [World]; every call reads its stream at the
      current [tick] and advances the tick.  Calls are sequenced in Python's
      evaluation order (statements top to bottom, keyword arguments left to
      right).  A call to [random] takes one raw draw and reduces it to the
      range asked for; the Mersenne Twister behind it is not modelled.
    - A Python exception is a [Raises] outcome.
    - Timestamps are naive local datetimes counted in microseconds.
    - Console output ([print]) is not modelled. *)

From Stdlib Require Import ZArith NArith QArith Qround String Ascii List Lia Lqa.
From Stdlib Require Import DecimalString.
From stdpp Require Import base option list gmap strings.

Open Scope string_scope.
Open Scope Z_scope.

(** ** The ambient world: randomness, entropy, Faker and the clock *)

Inductive exn := IndexError | KeyError.

Record World := mkWorld {
  tick    : nat;
  rand    : nat -> N;        (* raw draws of the [random] module *)
  urandom : nat -> N;        (* entropy behind [uuid.uuid4] *)
  faker   : nat -> string;   (* strings handed out by Faker *)
  clock   : nat -> Z         (* readings of [datetime.now], microseconds *)
}.

Definition advance (w : World) : World :=
  {| tick := S (tick w); rand := rand w; urandom := urandom w;
     faker := faker w; clock := clock w |}.

Inductive outcome (A : Type) :=
| Returns (a : A) (w : World)
| Raises (e : exn).
Arguments Returns {A} a w.
Arguments Raises {A} e.

Definition M (A : Type) : Type := World -> outcome A.

Definition ret {A} (a : A) : M A := fun w => Returns a w.

Definition bind {A B} (c : M A) (k : A -> M B) : M B :=
  fun w => match c w with
           | Returns a w' => k a w'
           | Raises e => Raises e
           end.

Definition raise {A} (e : exn) : M A := fun _ => Raises e.

Notation "x <- c ;; k" := (bind c (fun x => k))
  (at level 100, c at next level, right associativity).

(** [for _ in range(n): acc.append(body())] *)
Fixpoint repeatM {A} (n : nat) (body : M A) : M (list A) :=
  match n with
  | O => ret []
  | S n' => x <- body ;; xs <- repeatM n' body ;; ret (x :: xs)
  end.

(** *** Primitives of the [random] module *)

(** One raw draw. *)
Definition draw : M N := fun w => Returns (rand w (tick w)) (advance w).

Definition two53 : positive := 9007199254740992.

(** [random.random()]: a 53-bit integer over [2^53], in [[0, 1)]. *)
Definition random : M Q :=
  k <- draw ;; ret (Z.of_N (k mod Npos two53) # two53).

(** [random.uniform(a, b)] is [a + (b - a) * random()]. *)
Definition uniform (a b : Q) : M Q :=
  u <- random ;; ret (a + (b - a) * u)%Q.

(** [random.randint(a, b)]: an integer of [[a, b]]. *)
Definition randint (a b : Z) : M Z :=
  k <- draw ;; ret (a + Z.of_N k mod (b - a + 1)).

(** [random.choice(seq)]: an empty sequence raises [IndexError], otherwise
    the element at a random index below [len(seq)]. *)
Definition choice {A} (seq : list A) : M A :=
  match seq with
  | [] => raise IndexError
  | _ :: _ =>
      k <- draw ;;
      match seq !! N.to_nat (k mod N.of_nat (length seq)) with
      | Some x => ret x
      | None => raise IndexError
      end
  end.

(** *** [uuid.uuid4], Faker and the clock *)

Definition hex_digit (n : N) : ascii :=
  match n with
  | 0 => "0" | 1 => "1" | 2 => "2" | 3 => "3" | 4 => "4" | 5 => "5"
  | 6 => "6" | 7 => "7" | 8 => "8" | 9 => "9" | 10 => "a" | 11 => "b"
  | 12 => "c" | 13 => "d" | 14 => "e" | _ => "f"
  end%N%char.

(** ['%0kx' % n] for [n < 16^k]. *)
Fixpoint hex_fixed (k : nat) (n : N) : string :=
  match k with
  | O => ""
  | S k' => hex_fixed k' (n / 16)%N +:+ String (hex_digit (n mod 16)%N) ""
  end.

(** The 128-bit integer of a version-4 UUID built from 16 random bytes:
    the variant bits are set to [10] and the version nibble to [4]. *)
Definition uuid4_int (raw : N) : N :=
  let n := (raw mod 2 ^ 128)%N in
  let n := N.ldiff n (N.shiftl 0xc000 48) in
  let n := N.lor n (N.shiftl 0x8000 48) in
  let n := N.ldiff n (N.shiftl 0xf000 64) in
  N.lor n (N.shiftl 4 76).

(** [str(uuid)]: the 32 hex digits grouped 8-4-4-4-12. *)
Definition uuid_str (n : N) : string :=
  let h := hex_fixed 32 n in
  substring 0 8 h +:+ "-" +:+ substring 8 4 h +:+ "-" +:+
  substring 12 4 h +:+ "-" +:+ substring 16 4 h +:+ "-" +:+
  substring 20 12 h.

(** [str(uuid.uuid4())] *)
Definition uuid4 : M string :=
  fun w => Returns (uuid_str (uuid4_int (urandom w (tick w)))) (advance w).

(** Any of Faker's providers ([name], [email], [phone_number], [company],
    [ipv4]): an opaque string. *)
Definition fake : M string :=
  fun w => Returns (faker w (tick w)) (advance w).

(** [datetime.now()] *)
Definition now : M Z :=
  fun w => Returns (clock w (tick w)) (advance w).

(** [str(n)] for a Python [int]. *)
Definition str (n : Z) : string := NilZero.string_of_int (Z.to_int n).

(** [round(x, 2)]: nearest hundredth, ties to even. *)
Definition round_half_even (q : Q) : Z :=
  let f := Qfloor q in
  match ((q - inject_Z f) ?= 1 # 2)%Q with
  | Lt => f
  | Gt => f + 1
  | Eq => if Z.even f then f else f + 1
  end.

Definition round2 (q : Q) : Q := round_half_even (q * 100) # 100.

(** [datetime] arithmetic on microsecond counts. *)
Definition seconds (n : Z) : Z := n * 1000000.
Definition minutes (n : Z) : Z := n * 60000000.
Definition day_us : Z := 86400000000.

(** [t.replace(hour=h, minute=m)]: date, second and microsecond are kept. *)
Definition replace_hour_minute (t h m : Z) : Z :=
  let within := t mod day_us in
  t - within + (h * 3600 + m * 60) * 1000000 + within mod 60000000.

(** ** config.py *)

Module Config.

Definition MERCHANT_CATEGORIES : list string :=
  [ "grocery"; "restaurant"; "gas_station"; "pharmacy"; "electronics";
    "clothing"; "entertainment"; "travel"; "utilities"; "online_retail" ].

Definition CATEGORY_SPENDING_RANGES : gmap string (Z * Z) :=
  list_to_map
    [ ("grocery", (20, 150)); ("restaurant", (15, 80));
      ("gas_station", (30, 70)); ("pharmacy", (10, 100));
      ("electronics", (50, 500)); ("clothing", (30, 200));
      ("entertainment", (20, 150)); ("travel", (100, 1000));
      ("utilities", (50, 300)); ("online_retail", (25, 250)) ].

Definition US_LAT_RANGE : Q * Q := (25 # 1, 49 # 1)%Q.
Definition US_LON_RANGE : Q * Q := (- (125 # 1), - (66 # 1))%Q.

Definition FRAUD_PROBABILITY : Q := (2 # 100)%Q.

End Config.

(** [d[key]] on a dict; a missing key raises [KeyError]. *)
Definition getitem {V} (d : gmap string V) (key : string) : M V :=
  match d !! key with
  | Some v => ret v
  | None => raise KeyError
  end.

(** ** models/transaction.py *)

Inductive pyval :=
| VStr (s : string)
| VFloat (q : Q)
| VBool (b : bool)
| VDatetime (t : Z)
| VNone.

Module User.
Record t := mk {
  user_id : string;
  name : string;
  email : string;
  phone : string;
  home_lat : Q;
  home_lon : Q;
  typical_spending : Q;
  account_age_days : Z
}.
End User.

Module Merchant.
Record t := mk {
  merchant_id : string;
  merchant_name : string;
  category : string;
  location_lat : Q;
  location_lon : Q;
  average_transaction : Q
}.
End Merchant.

Module Transaction.
Record t := mk {
  transaction_id : string;
  timestamp : Z;
  user_id : string;
  card_number : string;
  merchant_id : string;
  merchant_name : string;
  merchant_category : string;
  amount : Q;
  currency : string;
  location_lat : Q;
  location_lon : Q;
  device_id : string;
  ip_address : string;
  is_fraud : bool;
  fraud_type : option string
}.

Definition opt_str (o : option string) : pyval :=
  match o with
  | Some s => VStr s
  | None => VNone
  end.

(** [dataclasses.asdict(self)] *)
Definition asdict (self : t) : gmap string pyval :=
  list_to_map
    [ ("transaction_id", VStr (transaction_id self));
      ("timestamp", VDatetime (timestamp self));
      ("user_id", VStr (user_id self));
      ("card_number", VStr (card_number self));
      ("merchant_id", VStr (merchant_id self));
      ("merchant_name", VStr (merchant_name self));
      ("merchant_category", VStr (merchant_category self));
      ("amount", VFloat (amount self));
      ("currency", VStr (currency self));
      ("location_lat", VFloat (location_lat self));
      ("location_lon", VFloat (location_lon self));
      ("device_id", VStr (device_id self));
      ("ip_address", VStr (ip_address self));
      ("is_fraud", VBool (is_fraud self));
      ("fraud_type", opt_str (fraud_type self)) ].

Section Serialisation.
(** [datetime.isoformat], provided by the Python standard library. *)
Variable isoformat : Z -> string.

Definition to_dict (self : t) : gmap string pyval :=
  let data := asdict self in
  <["timestamp" := VStr (isoformat (timestamp self))]> data.
End Serialisation.
End Transaction.

(** ** generator.py *)

Module TransactionGenerator.

Record t := mk {
  num_users : Z;
  num_merchants : Z;
  users : list User.t;
  merchants : list Merchant.t
}.

(** One iteration of the loop of [_generate_users]. *)
Definition new_user : M User.t :=
  uid <- uuid4 ;;
  name <- fake ;;
  email <- fake ;;
  phone <- fake ;;
  home_lat <- uniform (fst Config.US_LAT_RANGE) (snd Config.US_LAT_RANGE) ;;
  home_lon <- uniform (fst Config.US_LON_RANGE) (snd Config.US_LON_RANGE) ;;
  typical_spending <- uniform (50 # 1) (500 # 1) ;;
  account_age_days <- randint 30 3650 ;;
  ret {| User.user_id := "USER_" +:+ substring 0 8 uid;
         User.name := name;
         User.email := email;
         User.phone := phone;
         User.home_lat := home_lat;
         User.home_lon := home_lon;
         User.typical_spending := typical_spending;
         User.account_age_days := account_age_days |}.

(** [for i in range(self.num_users)]: no iteration when the count is not
    positive. *)
Definition _generate_users (num_users : Z) : M (list User.t) :=
  repeatM (Z.to_nat num_users) new_user.

(** One iteration of the loop of [_generate_merchants]. *)
Definition new_merchant : M Merchant.t :=
  category <- choice Config.MERCHANT_CATEGORIES ;;
  range <- getitem Config.CATEGORY_SPENDING_RANGES category ;;
  let avg_amount := (inject_Z (fst range + snd range) / (2 # 1))%Q in
  mid <- uuid4 ;;
  merchant_name <- fake ;;
  location_lat <- uniform (fst Config.US_LAT_RANGE) (snd Config.US_LAT_RANGE) ;;
  location_lon <- uniform (fst Config.US_LON_RANGE) (snd Config.US_LON_RANGE) ;;
  ret {| Merchant.merchant_id := "MERCH_" +:+ substring 0 8 mid;
         Merchant.merchant_name := merchant_name;
         Merchant.category := category;
         Merchant.location_lat := location_lat;
         Merchant.location_lon := location_lon;
         Merchant.average_transaction := avg_amount |}.

Definition _generate_merchants (num_merchants : Z) : M (list Merchant.t) :=
  repeatM (Z.to_nat num_merchants) new_merchant.

(** [TransactionGenerator(num_users, num_merchants)] *)
Definition init (num_users num_merchants : Z) : M t :=
  us <- _generate_users num_users ;;
  ms <- _generate_merchants num_merchants ;;
  ret {| num_users := num_users; num_merchants := num_merchants;
         users := us; merchants := ms |}.

Definition generate_normal_transaction (self : t) : M Transaction.t :=
  user <- choice (users self) ;;
  merchant <- choice (merchants self) ;;
  range <- getitem Config.CATEGORY_SPENDING_RANGES (Merchant.category merchant) ;;
  x <- uniform (inject_Z (fst range)) (inject_Z (snd range)) ;;
  let amount := round2 x in
  dlat <- uniform (- (7 # 10)) (7 # 10) ;;
  let location_lat := (User.home_lat user + dlat)%Q in
  dlon <- uniform (- (7 # 10)) (7 # 10) ;;
  let location_lon := (User.home_lon user + dlon)%Q in
  tid <- uuid4 ;;
  ts <- now ;;
  card <- randint 1000 9999 ;;
  dev <- randint 1000 9999 ;;
  ip <- fake ;;
  ret {| Transaction.transaction_id := tid;
         Transaction.timestamp := ts;
         Transaction.user_id := User.user_id user;
         Transaction.card_number := "****-****-****-" +:+ str card;
         Transaction.merchant_id := Merchant.merchant_id merchant;
         Transaction.merchant_name := Merchant.merchant_name merchant;
         Transaction.merchant_category := Merchant.category merchant;
         Transaction.amount := amount;
         Transaction.currency := "USD";
         Transaction.location_lat := location_lat;
         Transaction.location_lon := location_lon;
         Transaction.device_id := "DEVICE_" +:+ str dev;
         Transaction.ip_address := ip;
         Transaction.is_fraud := false;
         Transaction.fraud_type := None |}.

(** Both branches of the source call [generate_normal_transaction]. *)
Definition generate_transaction (self : t) : M Transaction.t :=
  u <- random ;;
  if Qlt_le_dec u Config.FRAUD_PROBABILITY
  then generate_normal_transaction self
  else generate_normal_transaction self.

End TransactionGenerator.

(** ** fraud_patterns.py *)

(** Python's [max(a, b)] and [min(a, b)] on two numbers: the first argument
    wins a tie. *)
Definition pymax (a b : Q) : Q := if Qlt_le_dec a b then b else a.
Definition pymin (a b : Q) : Q := if Qlt_le_dec b a then b else a.

Module FraudPatternGenerator.

Record t := mk {
  users : list User.t;
  merchants : list Merchant.t
}.

(** The f-string
    [f"{randint(1,255)}.{randint(1,255)}.{randint(1,255)}.{randint(1,255)}"]
    every pattern uses for [ip_address]. *)
Definition random_ip : M string :=
  a <- randint 1 255 ;;
  b <- randint 1 255 ;;
  c <- randint 1 255 ;;
  d <- randint 1 255 ;;
  ret (str a +:+ "." +:+ str b +:+ "." +:+ str c +:+ "." +:+ str d).

Definition generate_unusual_amount (self : t) : M Transaction.t :=
  user <- choice (users self) ;;
  merchant <- choice (merchants self) ;;
  f <- uniform (10 # 1) (20 # 1) ;;
  let unusual_amount := round2 (User.typical_spending user * f) in
  tid <- uuid4 ;;
  ts <- now ;;
  card <- randint 1000 9999 ;;
  dlat <- uniform (- (5 # 10)) (5 # 10) ;;
  dlon <- uniform (- (5 # 10)) (5 # 10) ;;
  dev <- randint 1000 9999 ;;
  ip <- random_ip ;;
  ret {| Transaction.transaction_id := tid;
         Transaction.timestamp := ts;
         Transaction.user_id := User.user_id user;
         Transaction.card_number := "****-****-****-" +:+ str card;
         Transaction.merchant_id := Merchant.merchant_id merchant;
         Transaction.merchant_name := Merchant.merchant_name merchant;
         Transaction.merchant_category := Merchant.category merchant;
         Transaction.amount := unusual_amount;
         Transaction.currency := "USD";
         Transaction.location_lat := (User.home_lat user + dlat)%Q;
         Transaction.location_lon := (User.home_lon user + dlon)%Q;
         Transaction.device_id := "DEVICE_" +:+ str dev;
         Transaction.ip_address := ip;
         Transaction.is_fraud := true;
         Transaction.fraud_type := Some "unusual_amount" |}.

Definition generate_geographic_anomaly (self : t) : M Transaction.t :=
  user <- choice (users self) ;;
  merchant <- choice (merchants self) ;;
  a <- uniform (10 # 1) (30 # 1) ;;
  sa <- choice [-1; 1] ;;
  let far_lat := (User.home_lat user + a * inject_Z sa)%Q in
  b <- uniform (10 # 1) (30 # 1) ;;
  sb <- choice [-1; 1] ;;
  let far_lon := (User.home_lon user + b * inject_Z sb)%Q in
  let far_lat :=
    pymax (fst Config.US_LAT_RANGE) (pymin (snd Config.US_LAT_RANGE) far_lat) in
  let far_lon :=
    pymax (fst Config.US_LON_RANGE) (pymin (snd Config.US_LON_RANGE) far_lon) in
  tid <- uuid4 ;;
  ts <- now ;;
  card <- randint 1000 9999 ;;
  x <- uniform (100 # 1) (500 # 1) ;;
  dev <- randint 5000 9999 ;;
  ip <- random_ip ;;
  ret {| Transaction.transaction_id := tid;
         Transaction.timestamp := ts;
         Transaction.user_id := User.user_id user;
         Transaction.card_number := "****-****-****-" +:+ str card;
         Transaction.merchant_id := Merchant.merchant_id merchant;
         Transaction.merchant_name := Merchant.merchant_name merchant;
         Transaction.merchant_category := Merchant.category merchant;
         Transaction.amount := round2 x;
         Transaction.currency := "USD";
         Transaction.location_lat := far_lat;
         Transaction.location_lon := far_lon;
         Transaction.device_id := "DEVICE_" +:+ str dev;
         Transaction.ip_address := ip;
         Transaction.is_fraud := true;
         Transaction.fraud_type := Some "geographic_anomaly" |}.

(** Body of the loop of [generate_high_frequency]. *)
Definition high_frequency_step (self : t) (user : User.t) (base_time : Z)
  : M Transaction.t :=
  merchant <- choice (merchants self) ;;
  off <- randint 0 300 ;;
  let time_offset := seconds off in
  tid <- uuid4 ;;
  card <- randint 1000 9999 ;;
  x <- uniform (50 # 1) (300 # 1) ;;
  dlat <- uniform (- (1 # 1)) (1 # 1) ;;
  dlon <- uniform (- (1 # 1)) (1 # 1) ;;
  dev <- randint 1000 9999 ;;
  ip <- random_ip ;;
  ret {| Transaction.transaction_id := tid;
         Transaction.timestamp := base_time + time_offset;
         Transaction.user_id := User.user_id user;
         Transaction.card_number := "****-****-****-" +:+ str card;
         Transaction.merchant_id := Merchant.merchant_id merchant;
         Transaction.merchant_name := Merchant.merchant_name merchant;
         Transaction.merchant_category := Merchant.category merchant;
         Transaction.amount := round2 x;
         Transaction.currency := "USD";
         Transaction.location_lat := (User.home_lat user + dlat)%Q;
         Transaction.location_lon := (User.home_lon user + dlon)%Q;
         Transaction.device_id := "DEVICE_" +:+ str dev;
         Transaction.ip_address := ip;
         Transaction.is_fraud := true;
         Transaction.fraud_type := Some "high_frequency" |}.

Definition generate_high_frequency (self : t) : M (list Transaction.t) :=
  user <- choice (users self) ;;
  num_transactions <- randint 8 15 ;;
  base_time <- now ;;
  repeatM (Z.to_nat num_transactions) (high_frequency_step self user base_time).

(** Body of the loop of [generate_card_testing]. *)
Definition card_testing_step (self : t) (user : User.t) (base_time : Z)
  : M Transaction.t :=
  merchant <- choice (merchants self) ;;
  off <- randint 0 30 ;;
  let time_offset := minutes off in
  x <- uniform (50 # 100) (500 # 100) ;;
  let test_amount := round2 x in
  tid <- uuid4 ;;
  card <- randint 1000 9999 ;;
  dlat <- uniform (- (3 # 10)) (3 # 10) ;;
  dlon <- uniform (- (3 # 10)) (3 # 10) ;;
  dev <- randint 1000 9999 ;;
  ip <- random_ip ;;
  ret {| Transaction.transaction_id := tid;
         Transaction.timestamp := base_time + time_offset;
         Transaction.user_id := User.user_id user;
         Transaction.card_number := "****-****-****-" +:+ str card;
         Transaction.merchant_id := Merchant.merchant_id merchant;
         Transaction.merchant_name := Merchant.merchant_name merchant;
         Transaction.merchant_category := Merchant.category merchant;
         Transaction.amount := test_amount;
         Transaction.currency := "USD";
         Transaction.location_lat := (User.home_lat user + dlat)%Q;
         Transaction.location_lon := (User.home_lon user + dlon)%Q;
         Transaction.device_id := "DEVICE_" +:+ str dev;
         Transaction.ip_address := ip;
         Transaction.is_fraud := true;
         Transaction.fraud_type := Some "card_testing" |}.

Definition generate_card_testing (self : t) : M (list Transaction.t) :=
  user <- choice (users self) ;;
  num_tests <- randint 5 10 ;;
  base_time <- now ;;
  repeatM (Z.to_nat num_tests) (card_testing_step self user base_time).

Definition generate_time_anomaly (self : t) : M Transaction.t :=
  user <- choice (users self) ;;
  merchant <- choice (merchants self) ;;
  t0 <- now ;;
  h <- randint 1 5 ;;
  m <- randint 0 59 ;;
  let base_time := replace_hour_minute t0 h m in
  tid <- uuid4 ;;
  card <- randint 1000 9999 ;;
  x <- uniform (100 # 1) (800 # 1) ;;
  dlat <- uniform (- (2 # 1)) (2 # 1) ;;
  dlon <- uniform (- (2 # 1)) (2 # 1) ;;
  dev <- randint 5000 9999 ;;
  ip <- random_ip ;;
  ret {| Transaction.transaction_id := tid;
         Transaction.timestamp := base_time;
         Transaction.user_id := User.user_id user;
         Transaction.card_number := "****-****-****-" +:+ str card;
         Transaction.merchant_id := Merchant.merchant_id merchant;
         Transaction.merchant_name := Merchant.merchant_name merchant;
         Transaction.merchant_category := Merchant.category merchant;
         Transaction.amount := round2 x;
         Transaction.currency := "USD";
         Transaction.location_lat := (User.home_lat user + dlat)%Q;
         Transaction.location_lon := (User.home_lon user + dlon)%Q;
         Transaction.device_id := "DEVICE_" +:+ str dev;
         Transaction.ip_address := ip;
         Transaction.is_fraud := true;
         Transaction.fraud_type := Some "time_anomaly" |}.

Definition round_amounts : list Q :=
  [100 # 1; 200 # 1; 250 # 1; 500 # 1; 750 # 1; 1000 # 1; 1500 # 1]%Q.

Definition generate_round_amount (self : t) : M Transaction.t :=
  user <- choice (users self) ;;
  merchant <- choice (merchants self) ;;
  amount <- choice round_amounts ;;
  tid <- uuid4 ;;
  ts <- now ;;
  card <- randint 1000 9999 ;;
  dlat <- uniform (- (1 # 1)) (1 # 1) ;;
  dlon <- uniform (- (1 # 1)) (1 # 1) ;;
  dev <- randint 1000 9999 ;;
  ip <- random_ip ;;
  ret {| Transaction.transaction_id := tid;
         Transaction.timestamp := ts;
         Transaction.user_id := User.user_id user;
         Transaction.card_number := "****-****-****-" +:+ str card;
         Transaction.merchant_id := Merchant.merchant_id merchant;
         Transaction.merchant_name := Merchant.merchant_name merchant;
         Transaction.merchant_category := Merchant.category merchant;
         Transaction.amount := amount;
         Transaction.currency := "USD";
         Transaction.location_lat := (User.home_lat user + dlat)%Q;
         Transaction.location_lon := (User.home_lon user + dlon)%Q;
         Transaction.device_id := "DEVICE_" +:+ str dev;
         Transaction.ip_address := ip;
         Transaction.is_fraud := true;
         Transaction.fraud_type := Some "round_amount" |}.

Definition high_risk_categories : list string :=
  ["electronics"; "jewelry"; "online_retail"].

(** [[m for m in self.merchants if m.category in high_risk_categories]] *)
Definition high_risk_merchants (self : t) : list Merchant.t :=
  filter (fun m => Merchant.category m ∈ high_risk_categories) (merchants self).

Definition generate_high_risk_category (self : t) : M Transaction.t :=
  user <- choice (users self) ;;
  merchant <- (match high_risk_merchants self with
               | [] => choice (merchants self)
               | _ :: _ => choice (high_risk_merchants self)
               end) ;;
  x <- uniform (2000 # 1) (5000 # 1) ;;
  let amount := round2 x in
  tid <- uuid4 ;;
  ts <- now ;;
  card <- randint 1000 9999 ;;
  dlat <- uniform (- (3 # 1)) (3 # 1) ;;
  dlon <- uniform (- (3 # 1)) (3 # 1) ;;
  dev <- randint 5000 9999 ;;
  ip <- random_ip ;;
  ret {| Transaction.transaction_id := tid;
         Transaction.timestamp := ts;
         Transaction.user_id := User.user_id user;
         Transaction.card_number := "****-****-****-" +:+ str card;
         Transaction.merchant_id := Merchant.merchant_id merchant;
         Transaction.merchant_name := Merchant.merchant_name merchant;
         Transaction.merchant_category := Merchant.category merchant;
         Transaction.amount := amount;
         Transaction.currency := "USD";
         Transaction.location_lat := (User.home_lat user + dlat)%Q;
         Transaction.location_lon := (User.home_lon user + dlon)%Q;
         Transaction.device_id := "DEVICE_" +:+ str dev;
         Transaction.ip_address := ip;
         Transaction.is_fraud := true;
         Transaction.fraud_type := Some "high_risk_category" |}.

(** The table of bound methods built by [generate_random_fraud]. *)
Definition fraud_generators (self : t) : list (M Transaction.t) :=
  [ generate_unusual_amount self;
    generate_geographic_anomaly self;
    generate_time_anomaly self;
    generate_round_amount self;
    generate_high_risk_category self ].

Definition generate_random_fraud (self : t) : M Transaction.t :=
  generator <- choice (fraud_generators self) ;;
  generator.

End FraudPatternGenerator.

(** ** Vocabulary of the properties *)

(** The seven patterns of the library, and the generator behind each.  A
    single-transaction pattern is run as a batch of one. *)
Inductive pattern :=
| unusual_amount | geographic_anomaly | high_frequency | card_testing
| time_anomaly | round_amount | high_risk_category.

Definition tag (p : pattern) : string :=
  match p with
  | unusual_amount => "unusual_amount"
  | geographic_anomaly => "geographic_anomaly"
  | high_frequency => "high_frequency"
  | card_testing => "card_testing"
  | time_anomaly => "time_anomaly"
  | round_amount => "round_amount"
  | high_risk_category => "high_risk_category"
  end.

Definition fraud_tags : list string :=
  map tag [unusual_amount; geographic_anomaly; high_frequency; card_testing;
           time_anomaly; round_amount; high_risk_category].

Definition single {A} (c : M A) : M (list A) := x <- c ;; ret [x].

Definition run_pattern (p : pattern) (self : FraudPatternGenerator.t)
  : M (list Transaction.t) :=
  match p with
  | unusual_amount => single (FraudPatternGenerator.generate_unusual_amount self)
  | geographic_anomaly =>
      single (FraudPatternGenerator.generate_geographic_anomaly self)
  | high_frequency => FraudPatternGenerator.generate_high_frequency self
  | card_testing => FraudPatternGenerator.generate_card_testing self
  | time_anomaly => single (FraudPatternGenerator.generate_time_anomaly self)
  | round_amount => single (FraudPatternGenerator.generate_round_amount self)
  | high_risk_category =>
      single (FraudPatternGenerator.generate_high_risk_category self)
  end.

(** The patterns behind the table of [generate_random_fraud]. *)
Definition single_patterns : list pattern :=
  [unusual_amount; geographic_anomaly; time_anomaly; round_amount;
   high_risk_category].

(** Every operation of the repository that returns transactions. *)
Inductive source :=
| Normal                 (* [generate_normal_transaction] *)
| Mixed                  (* [generate_transaction] *)
| Fraud (p : pattern)    (* one of the seven pattern generators *)
| RandomFraud.           (* [generate_random_fraud] *)

Definition emit (s : source) (g : TransactionGenerator.t)
    (fp : FraudPatternGenerator.t) : M (list Transaction.t) :=
  match s with
  | Normal => single (TransactionGenerator.generate_normal_transaction g)
  | Mixed => single (TransactionGenerator.generate_transaction g)
  | Fraud p => run_pattern p fp
  | RandomFraud => single (FraudPatternGenerator.generate_random_fraud fp)
  end.

(** The label of a record is consistent. *)
Definition label_ok (t : Transaction.t) : Prop :=
  (Transaction.fraud_type t <> None <-> Transaction.is_fraud t = true) /\
  (forall s, Transaction.fraud_type t = Some s -> s ∈ fraud_tags).

Definition is_digit (c : ascii) : bool :=
  let n := nat_of_ascii c in (48 <=? n)%nat && (n <=? 57)%nat.

Definition four_digits (s : string) : bool :=
  match s with
  | String a (String b (String c (String d EmptyString))) =>
      is_digit a && is_digit b && is_digit c && is_digit d
  | _ => false
  end.

(** ["****-****-****-"] followed by four decimal digits. *)
Definition masked_card (s : string) : Prop :=
  exists d, s = "****-****-****-" +:+ d /\ four_digits d = true.

(** Common to all seven patterns: the fraud label and the masked card. *)
Definition fraud_record (p : pattern) (t : Transaction.t) : Prop :=
  Transaction.is_fraud t = true /\
  Transaction.fraud_type t = Some (tag p) /\
  masked_card (Transaction.card_number t).

Definition in_box (t : Transaction.t) : Prop :=
  (fst Config.US_LAT_RANGE <= Transaction.location_lat t)%Q /\
  (Transaction.location_lat t <= snd Config.US_LAT_RANGE)%Q /\
  (fst Config.US_LON_RANGE <= Transaction.location_lon t)%Q /\
  (Transaction.location_lon t <= snd Config.US_LON_RANGE)%Q.

(** The record refers to a user of the pool and lies within [jit] degrees
    of that user's home on each axis. *)
Definition near_home (us : list User.t) (jit : Q) (t : Transaction.t) : Prop :=
  exists u, u ∈ us /\ Transaction.user_id t = User.user_id u /\
    (User.home_lat u - jit <= Transaction.location_lat t)%Q /\
    (Transaction.location_lat t <= User.home_lat u + jit)%Q /\
    (User.home_lon u - jit <= Transaction.location_lon t)%Q /\
    (Transaction.location_lon t <= User.home_lon u + jit)%Q.

(** The jitter each pattern adds to the home coordinate; the geographic
    anomaly adds a far offset and clamps instead. *)
Definition jitter (p : pattern) : option Q :=
  match p with
  | unusual_amount => Some (5 # 10)
  | geographic_anomaly => None
  | high_frequency => Some (1 # 1)
  | card_testing => Some (3 # 10)
  | time_anomaly => Some (2 # 1)
  | round_amount => Some (1 # 1)
  | high_risk_category => Some (3 # 1)
  end%Q.

Definition location_ok (p : pattern) (us : list User.t) (t : Transaction.t)
  : Prop :=
  match jitter p with
  | Some j => near_home us j t
  | None => in_box t
  end.

(** Squared coordinate distance between a record and a user's home. *)
Definition dist2 (u : User.t) (t : Transaction.t) : Q :=
  ((Transaction.location_lat t - User.home_lat u) ^ 2 +
   (Transaction.location_lon t - User.home_lon u) ^ 2)%Q.

Definition max_timestamp (txs : list Transaction.t) : Z :=
  match txs with
  | [] => 0
  | t :: rest =>
      foldr (fun x acc => Z.max (Transaction.timestamp x) acc)
            (Transaction.timestamp t) rest
  end.

Definition min_timestamp (txs : list Transaction.t) : Z :=
  match txs with
  | [] => 0
  | t :: rest =>
      foldr (fun x acc => Z.min (Transaction.timestamp x) acc)
            (Transaction.timestamp t) rest
  end.

(** The world after [k] calls to the ambient sources. *)
Definition later (k : nat) (w : World) : World := Nat.iter k advance w.

(** *** Concrete worlds *)

(** Every draw is the smallest one. *)
Definition world_low : World :=
  {| tick := 0; rand := fun _ => 0%N; urandom := fun _ => 0%N;
     faker := fun _ => "x"; clock := fun _ => 1700000000000000 |}.

(** Every draw is the largest one. *)
Definition world_high : World :=
  {| tick := 0; rand := fun _ => (Npos two53 - 1)%N; urandom := fun _ => 0%N;
     faker := fun _ => "x"; clock := fun _ => 1700000000000000 |}.

(** Draws that vary with the tick. *)
Definition world_mix : World :=
  {| tick := 0;
     rand := fun n => (N.of_nat n * 1000003 + 7)%N;
     urandom := fun n => (N.of_nat (S n) * 0x9e3779b97f4a7c15f39cc0605cedc834)%N;
     faker := fun _ => "x"; clock := fun _ => 1700000000000000 |}.

Definition pool_of (o : outcome TransactionGenerator.t)
  : TransactionGenerator.t :=
  match o with
  | Returns g _ => g
  | Raises _ => TransactionGenerator.mk 0 0 [] []
  end.

Definition world_after {A} (o : outcome A) (w : World) : World :=
  match o with
  | Returns _ w' => w'
  | Raises _ => w
  end.

Definition fraud_of (g : TransactionGenerator.t) : FraudPatternGenerator.t :=
  FraudPatternGenerator.mk (TransactionGenerator.users g)
                           (TransactionGenerator.merchants g).

(** Populations built by the generator itself in each world, and the world
    each construction leaves behind. *)
Definition pool_low := pool_of (TransactionGenerator.init 1 1 world_low).
Definition after_low :=
  world_after (TransactionGenerator.init 1 1 world_low) world_low.
Definition pool_high := pool_of (TransactionGenerator.init 1 1 world_high).
Definition after_high :=
  world_after (TransactionGenerator.init 1 1 world_high) world_high.
Definition pool_mix := pool_of (TransactionGenerator.init 3 3 world_mix).
Definition after_mix :=
  world_after (TransactionGenerator.init 3 3 world_mix) world_mix.

(** *** Vocabulary of the further properties *)

(** The record names a user of the pool. *)
Definition user_ref (us : list User.t) (t : Transaction.t) : Prop :=
  exists u, u ∈ us /\ Transaction.user_id t = User.user_id u.

(** The merchant id, name and category of the record are those of one
    merchant of the pool. *)
Definition merchant_ref (ms : list Merchant.t) (t : Transaction.t) : Prop :=
  exists m, m ∈ ms /\
    Transaction.merchant_id t = Merchant.merchant_id m /\
    Transaction.merchant_name t = Merchant.merchant_name m /\
    Transaction.merchant_category t = Merchant.category m.

(** The amount is a whole number of cents between [lo] and [hi]. *)
Definition cents_between (lo hi : Q) (t : Transaction.t) : Prop :=
  (lo <= Transaction.amount t)%Q /\ (Transaction.amount t <= hi)%Q /\
  exists z : Z, (Transaction.amount t == z # 100)%Q.

(** The fixed amount range of a pattern; the unusual amount scales with the
    user instead. *)
Definition amount_range (p : pattern) : option (Q * Q) :=
  match p with
  | unusual_amount => None
  | geographic_anomaly => Some (100 # 1, 500 # 1)
  | high_frequency => Some (50 # 1, 300 # 1)
  | card_testing => Some (50 # 100, 500 # 100)
  | time_anomaly => Some (100 # 1, 800 # 1)
  | round_amount => Some (100 # 1, 1500 # 1)
  | high_risk_category => Some (2000 # 1, 5000 # 1)
  end%Q.

(** The amount is the typical spending of the named user times a factor
    between 10 and 20, rounded to cents. *)
Definition scaled_amount (us : list User.t) (t : Transaction.t) : Prop :=
  exists u f, u ∈ us /\ Transaction.user_id t = User.user_id u /\
    ((10 # 1) <= f)%Q /\ (f <= (20 # 1))%Q /\
    Transaction.amount t = round2 (User.typical_spending u * f).

Definition amount_ok (p : pattern) (us : list User.t) (t : Transaction.t)
  : Prop :=
  match amount_range p with
  | Some (lo, hi) => cents_between lo hi t
  | None => scaled_amount us t
  end.

(** The pools a source draws from. *)
Definition users_behind (s : source) (g : TransactionGenerator.t)
    (fp : FraudPatternGenerator.t) : list User.t :=
  match s with
  | Normal | Mixed => TransactionGenerator.users g
  | Fraud _ | RandomFraud => FraudPatternGenerator.users fp
  end.

Definition merchants_behind (s : source) (g : TransactionGenerator.t)
    (fp : FraudPatternGenerator.t) : list Merchant.t :=
  match s with
  | Normal | Mixed => TransactionGenerator.merchants g
  | Fraud _ | RandomFraud => FraudPatternGenerator.merchants fp
  end.

(** What every pattern record carries besides its label. *)
Definition pattern_details (p : pattern) (us : list User.t)
    (ms : list Merchant.t) (t : Transaction.t) : Prop :=
  user_ref us t /\ merchant_ref ms t /\
  Transaction.currency t = "USD" /\ amount_ok p us t.

(** Fields of a naive datetime counted in microseconds. *)
Definition date_of (t : Z) : Z := t / day_us.
Definition hour_of (t : Z) : Z := (t mod day_us) / 3600000000.
Definition minute_of (t : Z) : Z := (t mod 3600000000) / 60000000.
Definition second_of (t : Z) : Z := (t mod 60000000) / 1000000.
Definition microsecond_of (t : Z) : Z := t mod 1000000.

(** The fields of the [Transaction] dataclass, in declaration order. *)
Definition field_names : list string :=
  [ "transaction_id"; "timestamp"; "user_id"; "card_number"; "merchant_id";
    "merchant_name"; "merchant_category"; "amount"; "currency";
    "location_lat"; "location_lon"; "device_id"; "ip_address"; "is_fraud";
    "fraud_type" ].

(** Two records agree on every field but the timestamp. *)
Definition same_but_timestamp (a b : Transaction.t) : Prop :=
  Transaction.transaction_id a = Transaction.transaction_id b /\
  Transaction.user_id a = Transaction.user_id b /\
  Transaction.card_number a = Transaction.card_number b /\
  Transaction.merchant_id a = Transaction.merchant_id b /\
  Transaction.merchant_name a = Transaction.merchant_name b /\
  Transaction.merchant_category a = Transaction.merchant_category b /\
  Transaction.amount a = Transaction.amount b /\
  Transaction.currency a = Transaction.currency b /\
  Transaction.location_lat a = Transaction.location_lat b /\
  Transaction.location_lon a = Transaction.location_lon b /\
  Transaction.device_id a = Transaction.device_id b /\
  Transaction.ip_address a = Transaction.ip_address b /\
  Transaction.is_fraud a = Transaction.is_fraud b /\
  Transaction.fraud_type a = Transaction.fraud_type b.

(** Pools that cannot serve a transaction. *)
Definition no_merchants : FraudPatternGenerator.t :=
  FraudPatternGenerator.mk (TransactionGenerator.users pool_mix) [].

(** A pool whose only merchant has a category the configuration lacks. *)
Definition jeweller : Merchant.t :=
  Merchant.mk "MERCH_0badc0de" "Gems" "jewelry" (40 # 1) (- (100 # 1)) (900 # 1).
Definition pool_jewelry : TransactionGenerator.t :=
  TransactionGenerator.mk 3 1 (TransactionGenerator.users pool_mix) [jeweller].

(** A pool without any high-risk merchant. *)
Definition grocer : Merchant.t :=
  Merchant.mk "MERCH_0000f00d" "Greens" "grocery" (40 # 1) (- (100 # 1)) (85 # 1).
Definition pool_grocery : FraudPatternGenerator.t :=
  FraudPatternGenerator.mk (TransactionGenerator.users pool_mix) [grocer].

(** On one axis, a clamped far offset ends on an edge of the range or
    between 10 and 30 degrees from home. *)
Definition edge_or_far (range : Q * Q) (home x : Q) : Prop :=
  (x == fst range)%Q \/ (x == snd range)%Q \/
  ((10 # 1) <= x - home /\ x - home <= (30 # 1))%Q \/
  ((10 # 1) <= home - x /\ home - x <= (30 # 1))%Q.

(** What [_generate_users] gives every user. *)
Definition user_ok (u : User.t) : Prop :=
  (fst Config.US_LAT_RANGE <= User.home_lat u)%Q /\
  (User.home_lat u <= snd Config.US_LAT_RANGE)%Q /\
  (fst Config.US_LON_RANGE <= User.home_lon u)%Q /\
  (User.home_lon u <= snd Config.US_LON_RANGE)%Q /\
  ((50 # 1) <= User.typical_spending u)%Q /\
  (User.typical_spending u <= (500 # 1))%Q /\
  30 <= User.account_age_days u <= 3650.

(** What [_generate_merchants] gives every merchant. *)
Definition merchant_ok (m : Merchant.t) : Prop :=
  Merchant.category m ∈ Config.MERCHANT_CATEGORIES /\
  (exists lo hi,
     Config.CATEGORY_SPENDING_RANGES !! Merchant.category m = Some (lo, hi) /\
     (Merchant.average_transaction m == inject_Z (lo + hi) / (2 # 1))%Q) /\
  (fst Config.US_LAT_RANGE <= Merchant.location_lat m)%Q /\
  (Merchant.location_lat m <= snd Config.US_LAT_RANGE)%Q /\
  (fst Config.US_LON_RANGE <= Merchant.location_lon m)%Q /\
  (Merchant.location_lon m <= snd Config.US_LON_RANGE)%Q.

(** The amount is positive and a whole number of cents. *)
Definition positive_cents (t : Transaction.t) : Prop :=
  (0 < Transaction.amount t)%Q /\
  exists z : Z, (Transaction.amount t == z # 100)%Q.

(** The lowest device number a pattern draws: three patterns draw from the
    upper part of the range only. *)
Definition device_floor (p : pattern) : Z :=
  match p with
  | geographic_anomaly | time_anomaly | high_risk_category => 5000
  | _ => 1000
  end.

(** ["DEVICE_"] and a number of [[device_floor p, 9999]]; four numbers of
    [[1, 255]] joined by dots. *)
Definition device_and_ip (p : pattern) (t : Transaction.t) : Prop :=
  (exists d, device_floor p <= d <= 9999 /\
             Transaction.device_id t = "DEVICE_" +:+ str d) /\
  (exists a b c d,
     1 <= a <= 255 /\ 1 <= b <= 255 /\ 1 <= c <= 255 /\ 1 <= d <= 255 /\
     Transaction.ip_address t
     = str a +:+ "." +:+ str b +:+ "." +:+ str c +:+ "." +:+ str d).

(** ** The monad and the primitives *)

Lemma bind_inv {A B} (c : M A) (k : A -> M B) w b w' :
  bind c k w = Returns b w' ->
  exists a w1, c w = Returns a w1 /\ k a w1 = Returns b w'.
Proof.
  unfold bind. destruct (c w) as [a w1|e]; [eauto | discriminate].
Qed.

Lemma ret_inv {A} (a b : A) w w' : ret a w = Returns b w' -> a = b /\ w = w'.
Proof. unfold ret. intros [= -> ->]. auto. Qed.

Lemma random_range w u w' : random w = Returns u w' -> (0 <= u /\ u < 1)%Q.
Proof.
  unfold random, bind, draw, ret. intros [= <- _].
  assert (N.pos two53 <> 0%N) as Hne by discriminate.
  apply (N.mod_lt (rand w (tick w))) in Hne. revert Hne.
  generalize (rand w (tick w) mod N.pos two53)%N as r. intros r Hr.
  unfold Qle, Qlt; simpl. unfold two53 in *. lia.
Qed.

Lemma uniform_range a b w x w' :
  (a <= b)%Q -> uniform a b w = Returns x w' -> (a <= x /\ x <= b)%Q.
Proof.
  intros Hab H. unfold uniform in H.
  apply bind_inv in H as (u & w1 & Hu & H). injection H as <- _.
  apply random_range in Hu as [H0 H1]. split; nra.
Qed.

Lemma randint_range a b w x w' :
  a <= b -> randint a b w = Returns x w' -> a <= x <= b.
Proof.
  intros Hab. unfold randint, bind, draw, ret. intros [= <- _].
  pose proof (Z.mod_pos_bound (Z.of_N (rand w (tick w))) (b - a + 1)). lia.
Qed.

(** Which element [choice] returns. *)
Lemma choice_lookup {A} (seq : list A) w x w' :
  choice seq w = Returns x w' ->
  seq !! N.to_nat (rand w (tick w) mod N.of_nat (length seq)) = Some x /\
  w' = advance w.
Proof.
  unfold choice. destruct seq as [|a seq]; [discriminate |].
  unfold bind, draw.
  destruct (_ !! _) as [y|] eqn:E; [|discriminate].
  intros [= <- <-]. auto.
Qed.

Lemma choice_elem_of {A} (seq : list A) w x w' :
  choice seq w = Returns x w' -> x ∈ seq.
Proof.
  intros H. apply choice_lookup in H as [H _].
  eapply list_elem_of_lookup_2; eauto.
Qed.

(** [choice] on a non-empty sequence returns. *)
Lemma choice_returns {A} (seq : list A) w :
  seq <> [] -> exists x, choice seq w = Returns x (advance w).
Proof.
  intros Hne. unfold choice. destruct seq as [|a seq]; [congruence |].
  unfold bind, draw.
  set (n := N.of_nat (length (a :: seq))).
  assert (Hn : n <> 0%N) by (unfold n; simpl; lia).
  pose proof (N.mod_lt (rand w (tick w)) n Hn) as Hlt.
  revert Hlt. generalize (rand w (tick w) mod n)%N as r. intros r Hlt.
  destruct ((a :: seq) !! N.to_nat r) as [y|] eqn:E.
  - exists y. reflexivity.
  - apply lookup_ge_None in E. unfold n in Hlt. lia.
Qed.

Lemma single_inv {A} (c : M A) w l w' :
  single c w = Returns l w' -> exists x, c w = Returns x w' /\ l = [x].
Proof.
  unfold single. intros H. apply bind_inv in H as (x & w1 & Hx & H).
  apply ret_inv in H as [<- <-]. eauto.
Qed.

Lemma repeatM_Forall {A} (P : A -> Prop) (body : M A) n :
  (forall w x w', body w = Returns x w' -> P x) ->
  forall w l w', repeatM n body w = Returns l w' ->
                 Forall P l /\ length l = n.
Proof.
  intros Hbody. induction n as [|n IH]; intros w l w' H; simpl in H.
  - apply ret_inv in H as [<- _]. split; [constructor | reflexivity].
  - apply bind_inv in H as (x & w1 & Hx & H).
    apply bind_inv in H as (xs & w2 & Hxs & H).
    apply ret_inv in H as [<- _].
    destruct (IH _ _ _ Hxs) as [HF Hlen].
    split; [constructor; eauto | simpl; congruence].
Qed.

(** Peels the binds of a computation that returned, leaving one hypothesis
    per call and the returned record as an equation. *)
Ltac peel H :=
  repeat (let x := fresh "x" in
          let w := fresh "w" in
          let Hc := fresh "Hc" in
          apply bind_inv in H as (x & w & Hc & H); cbv beta zeta in H);
  try (apply ret_inv in H as [H _]).

(** Turns the hypotheses left by [peel] into the ranges of the draws. *)
Ltac ranges :=
  repeat match goal with
    | H : choice _ _ = Returns _ _ |- _ => apply choice_elem_of in H
    | H : uniform _ _ _ = Returns _ _ |- _ =>
        apply uniform_range in H; [ | unfold Qle; simpl; lia ]
    | H : randint _ _ _ = Returns _ _ |- _ =>
        apply randint_range in H; [ | lia ]
    end.

Lemma round2_close q : (q - (1 # 200) <= round2 q /\ round2 q <= q + (1 # 200))%Q.
Proof.
  unfold round2, round_half_even.
  set (x := (q * 100)%Q). set (f := Qfloor x).
  assert (Hf1 : (inject_Z f <= x)%Q) by apply Qfloor_le.
  assert (Hf2 : (x < inject_Z (f + 1))%Q) by apply Qlt_floor.
  rewrite inject_Z_plus in Hf2. change (inject_Z 1) with 1%Q in Hf2.
  assert (Hz : forall z : Z, (z # 100 == inject_Z z * (1 # 100))%Q).
  { intros z. unfold Qeq. simpl. lia. }
  assert (Hx : (x == q * 100)%Q) by reflexivity.
  destruct (Qcompare_spec (x - inject_Z f) (1 # 2)) as [He|Hl|Hg].
  - destruct (Z.even f); rewrite Hz; [| rewrite inject_Z_plus; change (inject_Z 1) with 1%Q]; split; lra.
  - rewrite Hz. split; lra.
  - rewrite Hz, inject_Z_plus. change (inject_Z 1) with 1%Q. split; lra.
Qed.

Lemma str_four_digits c : 1000 <= c <= 9999 -> four_digits (str c) = true.
Proof.
  intros Hc.
  assert (Hall : forallb (fun k => four_digits (str (1000 + Z.of_nat k)))
                         (List.seq 0 (Z.to_nat 9000)) = true) by (vm_compute; reflexivity).
  rewrite forallb_forall in Hall.
  specialize (Hall (Z.to_nat (c - 1000))).
  replace (1000 + Z.of_nat (Z.to_nat (c - 1000))) with c in Hall by lia.
  apply Hall. apply in_seq. lia.
Qed.

Lemma masked_card_intro c :
  1000 <= c <= 9999 -> masked_card ("****-****-****-" +:+ str c).
Proof. intros Hc. exists (str c). split; [reflexivity | now apply str_four_digits]. Qed.


(** ** What each generator returns *)

Ltac fraud_record_tac :=
  split; [reflexivity | split; [reflexivity | now apply masked_card_intro]].

Ltac near_home_tac :=
  eexists; split; [eassumption |]; simpl;
  repeat split; try reflexivity; lra.

Lemma generate_normal_transaction_facts g w t w' :
  TransactionGenerator.generate_normal_transaction g w = Returns t w' ->
  Transaction.is_fraud t = false /\
  Transaction.fraud_type t = None /\
  masked_card (Transaction.card_number t).
Proof.
  intros H. unfold TransactionGenerator.generate_normal_transaction in H.
  peel H. ranges. subst t. simpl.
  split; [reflexivity | split; [reflexivity | now apply masked_card_intro]].
Qed.

Lemma generate_transaction_normal g w t w' :
  TransactionGenerator.generate_transaction g w = Returns t w' ->
  exists w1, TransactionGenerator.generate_normal_transaction g w1 = Returns t w'.
Proof.
  intros H. unfold TransactionGenerator.generate_transaction in H.
  apply bind_inv in H as (u & w1 & _ & H).
  exists w1. destruct (Qlt_le_dec u Config.FRAUD_PROBABILITY); exact H.
Qed.

Lemma generate_unusual_amount_facts self w t w' :
  FraudPatternGenerator.generate_unusual_amount self w = Returns t w' ->
  fraud_record unusual_amount t /\
  near_home (FraudPatternGenerator.users self) (5 # 10) t.
Proof.
  intros H. unfold FraudPatternGenerator.generate_unusual_amount in H.
  peel H. ranges. subst t.
  split; [fraud_record_tac | near_home_tac].
Qed.

Lemma pymax_lower a b : (a <= pymax a b)%Q.
Proof. unfold pymax. destruct (Qlt_le_dec a b); lra. Qed.

Lemma clamp_upper lo hi x : (lo <= hi -> pymax lo (pymin hi x) <= hi)%Q.
Proof.
  intros Hlh. unfold pymax, pymin.
  destruct (Qlt_le_dec x hi); destruct (Qlt_le_dec lo _); lra.
Qed.

Lemma generate_geographic_anomaly_facts self w t w' :
  FraudPatternGenerator.generate_geographic_anomaly self w = Returns t w' ->
  fraud_record geographic_anomaly t /\ in_box t.
Proof.
  intros H. unfold FraudPatternGenerator.generate_geographic_anomaly in H.
  peel H. ranges. subst t.
  split; [fraud_record_tac |].
  unfold in_box. simpl.
  repeat split; try apply pymax_lower; apply clamp_upper; unfold Qle; simpl; lia.
Qed.

Lemma high_frequency_step_facts self user base w t w' :
  FraudPatternGenerator.high_frequency_step self user base w = Returns t w' ->
  fraud_record high_frequency t /\
  near_home [user] (1 # 1) t /\
  exists off, 0 <= off <= 300 /\ Transaction.timestamp t = base + seconds off.
Proof.
  intros H. unfold FraudPatternGenerator.high_frequency_step in H.
  peel H. ranges. subst t.
  split; [fraud_record_tac |].
  split; [exists user; split; [apply list_elem_of_singleton; reflexivity |];
          simpl; repeat split; try reflexivity; lra |].
  eexists; split; [eassumption | reflexivity].
Qed.

Lemma card_testing_step_facts self user base w t w' :
  FraudPatternGenerator.card_testing_step self user base w = Returns t w' ->
  fraud_record card_testing t /\ near_home [user] (3 # 10) t.
Proof.
  intros H. unfold FraudPatternGenerator.card_testing_step in H.
  peel H. ranges. subst t.
  split; [fraud_record_tac |].
  exists user; split; [apply list_elem_of_singleton; reflexivity |].
  simpl; repeat split; try reflexivity; lra.
Qed.

Lemma generate_time_anomaly_facts self w t w' :
  FraudPatternGenerator.generate_time_anomaly self w = Returns t w' ->
  fraud_record time_anomaly t /\
  near_home (FraudPatternGenerator.users self) (2 # 1) t.
Proof.
  intros H. unfold FraudPatternGenerator.generate_time_anomaly in H.
  peel H. ranges. subst t.
  split; [fraud_record_tac | near_home_tac].
Qed.

Lemma generate_round_amount_facts self w t w' :
  FraudPatternGenerator.generate_round_amount self w = Returns t w' ->
  fraud_record round_amount t /\
  near_home (FraudPatternGenerator.users self) (1 # 1) t.
Proof.
  intros H. unfold FraudPatternGenerator.generate_round_amount in H.
  peel H. ranges. subst t.
  split; [fraud_record_tac | near_home_tac].
Qed.

Lemma generate_high_risk_category_facts self w t w' :
  FraudPatternGenerator.generate_high_risk_category self w = Returns t w' ->
  fraud_record high_risk_category t /\
  near_home (FraudPatternGenerator.users self) (3 # 1) t /\
  (FraudPatternGenerator.high_risk_merchants self <> [] ->
   exists m, m ∈ FraudPatternGenerator.high_risk_merchants self /\
             Transaction.merchant_category t = Merchant.category m).
Proof.
  intros H. unfold FraudPatternGenerator.generate_high_risk_category in H.
  peel H.
  assert (Hm : FraudPatternGenerator.high_risk_merchants self <> [] ->
               x0 ∈ FraudPatternGenerator.high_risk_merchants self).
  { intros Hne.
    destruct (FraudPatternGenerator.high_risk_merchants self) as [|m ms];
      [congruence | now apply choice_elem_of in Hc0]. }
  clear Hc0. ranges. subst t.
  split; [fraud_record_tac |]. split; [near_home_tac |].
  intros Hne. exists x0. split; [auto | reflexivity].
Qed.

Lemma near_home_member user us j t :
  user ∈ us -> near_home [user] j t -> near_home us j t.
Proof.
  intros Hin (u & Hu & Hrest). apply list_elem_of_singleton in Hu. subst u.
  exists user. split; assumption.
Qed.

Lemma generate_high_frequency_facts self w txs w' :
  FraudPatternGenerator.generate_high_frequency self w = Returns txs w' ->
  exists user base,
    user ∈ FraudPatternGenerator.users self /\
    (8 <= length txs <= 15)%nat /\
    Forall (fun t => fraud_record high_frequency t /\
                     near_home [user] (1 # 1) t /\
                     exists off, 0 <= off <= 300 /\
                       Transaction.timestamp t = base + seconds off) txs.
Proof.
  intros H. unfold FraudPatternGenerator.generate_high_frequency in H.
  apply bind_inv in H as (user & w1 & Hu & H).
  apply bind_inv in H as (n & w2 & Hn & H).
  apply bind_inv in H as (base & w3 & _ & H).
  apply choice_elem_of in Hu. apply randint_range in Hn; [| lia].
  eapply repeatM_Forall in H;
    [| intros ? ? ?; apply high_frequency_step_facts].
  destruct H as [HF Hlen]. exists user, base.
  split; [assumption |]. split; [lia | exact HF].
Qed.

Lemma generate_card_testing_facts self w txs w' :
  FraudPatternGenerator.generate_card_testing self w = Returns txs w' ->
  exists user,
    user ∈ FraudPatternGenerator.users self /\
    Forall (fun t => fraud_record card_testing t /\
                     near_home [user] (3 # 10) t) txs.
Proof.
  intros H. unfold FraudPatternGenerator.generate_card_testing in H.
  apply bind_inv in H as (user & w1 & Hu & H).
  apply bind_inv in H as (n & w2 & _ & H).
  apply bind_inv in H as (base & w3 & _ & H).
  apply choice_elem_of in Hu.
  eapply repeatM_Forall in H;
    [| intros ? ? ?; apply card_testing_step_facts].
  exists user. split; [assumption | apply H].
Qed.

(** Every pattern, run as a batch: label, card and location. *)
Lemma run_pattern_facts p self w txs w' :
  run_pattern p self w = Returns txs w' ->
  Forall (fun t => fraud_record p t /\
                   location_ok p (FraudPatternGenerator.users self) t) txs.
Proof.
  intros H. destruct p; simpl in H; unfold location_ok; simpl.
  - apply single_inv in H as (t & H & ->).
    apply generate_unusual_amount_facts in H. apply Forall_singleton; split; apply H.
  - apply single_inv in H as (t & H & ->).
    apply generate_geographic_anomaly_facts in H. apply Forall_singleton; split; apply H.
  - apply generate_high_frequency_facts in H as (user & base & Hu & _ & HF).
    eapply Forall_impl; [exact HF |]. cbv beta.
    intros t (Hr & Hn & _). split; [exact Hr | eapply near_home_member; eauto].
  - apply generate_card_testing_facts in H as (user & Hu & HF).
    eapply Forall_impl; [exact HF |]. cbv beta.
    intros t (Hr & Hn). split; [exact Hr | eapply near_home_member; eauto].
  - apply single_inv in H as (t & H & ->).
    apply generate_time_anomaly_facts in H. apply Forall_singleton; split; apply H.
  - apply single_inv in H as (t & H & ->).
    apply generate_round_amount_facts in H. apply Forall_singleton; split; apply H.
  - apply single_inv in H as (t & H & ->).
    apply generate_high_risk_category_facts in H. apply Forall_singleton; split; apply H.
Qed.

(** [generate_random_fraud] runs the entry of its table that the draw
    selects. *)
Lemma generate_random_fraud_select self w t w' :
  FraudPatternGenerator.generate_random_fraud self w = Returns t w' ->
  exists gen,
    FraudPatternGenerator.fraud_generators self
      !! N.to_nat (rand w (tick w) mod 5) = Some gen /\
    gen (advance w) = Returns t w'.
Proof.
  intros H. unfold FraudPatternGenerator.generate_random_fraud in H.
  apply bind_inv in H as (gen & w1 & Hc & H).
  apply choice_lookup in Hc as [Hl ->]. exists gen. split; assumption.
Qed.

Lemma generate_random_fraud_facts self w t w' :
  FraudPatternGenerator.generate_random_fraud self w = Returns t w' ->
  exists p, p ∈ single_patterns /\ fraud_record p t.
Proof.
  intros H. apply generate_random_fraud_select in H as (gen & Hl & H).
  assert (Hlt : (N.to_nat (rand w (tick w) mod 5) < 5)%nat).
  { assert (5 <> 0)%N as Hne by discriminate.
    apply (N.mod_lt (rand w (tick w))) in Hne. revert Hne.
    generalize (rand w (tick w) mod 5)%N as r. intros r Hr. lia. }
  destruct (N.to_nat (rand w (tick w) mod 5)) as [|[|[|[|[|i]]]]];
    [ | | | | | lia ]; simpl in Hl; injection Hl as <-.
  - exists unusual_amount. split; [set_solver |].
    now apply generate_unusual_amount_facts in H.
  - exists geographic_anomaly. split; [set_solver |].
    now apply generate_geographic_anomaly_facts in H.
  - exists time_anomaly. split; [set_solver |].
    now apply generate_time_anomaly_facts in H.
  - exists round_amount. split; [set_solver |].
    now apply generate_round_amount_facts in H.
  - exists high_risk_category. split; [set_solver |].
    now apply generate_high_risk_category_facts in H.
Qed.

Lemma tag_documented p : tag p ∈ fraud_tags.
Proof. destruct p; unfold fraud_tags; simpl; set_solver. Qed.

Lemma fraud_record_label p t : fraud_record p t -> label_ok t.
Proof.
  intros (Hf & Ht & _). unfold label_ok. rewrite Hf, Ht. split.
  - split; [reflexivity | discriminate].
  - intros s [= <-]. apply tag_documented.
Qed.

Lemma normal_label t :
  Transaction.is_fraud t = false -> Transaction.fraud_type t = None ->
  label_ok t.
Proof.
  intros Hf Ht. unfold label_ok. rewrite Hf, Ht. split.
  - split; [congruence | discriminate].
  - discriminate.
Qed.

Lemma emit_facts s g fp w txs w' :
  emit s g fp w = Returns txs w' ->
  Forall (fun t => label_ok t /\ masked_card (Transaction.card_number t)) txs.
Proof.
  intros H. destruct s as [| |p|]; simpl in H.
  - apply single_inv in H as (t & H & ->).
    apply generate_normal_transaction_facts in H as (Hf & Ht & Hc).
    apply Forall_singleton. split; [now apply normal_label | exact Hc].
  - apply single_inv in H as (t & H & ->).
    apply generate_transaction_normal in H as (w1 & H).
    apply generate_normal_transaction_facts in H as (Hf & Ht & Hc).
    apply Forall_singleton. split; [now apply normal_label | exact Hc].
  - apply run_pattern_facts in H.
    eapply Forall_impl; [exact H |]. cbv beta.
    intros t [Hr _]. split; [eapply fraud_record_label; eauto | apply Hr].
  - apply single_inv in H as (t & H & ->).
    apply generate_random_fraud_facts in H as (p & _ & Hr).
    apply Forall_singleton. split; [eapply fraud_record_label; eauto | apply Hr].
Qed.

Lemma to_dict_card_number iso t :
  Transaction.to_dict iso t !! "card_number"
  = Some (VStr (Transaction.card_number t)).
Proof.
  unfold Transaction.to_dict. rewrite lookup_insert_ne by discriminate.
  reflexivity.
Qed.

(** ** The claims *)

(** C2.  Every record returned by the normal synthesizer, by
    [generate_transaction], by any of the seven pattern generators or by
    [generate_random_fraud] has [fraud_type] set exactly when [is_fraud] is
    true, and a [fraud_type] that is set is one of the seven documented
    tags. *)
Theorem labels_consistent s g fp w txs w' :
  emit s g fp w = Returns txs w' -> Forall label_ok txs.
Proof.
  intros H. apply emit_facts in H.
  eapply Forall_impl; [exact H |]. cbv beta. intros t [Hl _]. exact Hl.
Qed.

Lemma labels_consistent_witness :
  exists txs w',
    emit (Fraud card_testing) pool_mix (fraud_of pool_mix) after_mix
      = Returns txs w' /\
    txs <> [] /\ Forall label_ok txs.
Proof.
  eexists _, _. split; [vm_compute; reflexivity |].
  split; [discriminate |].
  eapply (labels_consistent (Fraud card_testing) pool_mix (fraud_of pool_mix)
            after_mix).
  vm_compute. reflexivity.
Defined.

(** C10.  Every record returned by any synthesizer or pattern generator
    carries a [card_number] made of ["****-****-****-"] and four decimal
    digits, and the dictionary conversion [to_dict] holds that string under
    the key ["card_number"]. *)
Theorem card_number_masked iso s g fp w txs w' :
  emit s g fp w = Returns txs w' ->
  Forall (fun t =>
            masked_card (Transaction.card_number t) /\
            Transaction.to_dict iso t !! "card_number"
            = Some (VStr (Transaction.card_number t))) txs.
Proof.
  intros H. apply emit_facts in H.
  eapply Forall_impl; [exact H |]. cbv beta. intros t [_ Hc].
  split; [exact Hc | apply to_dict_card_number].
Qed.

Lemma card_number_masked_witness :
  exists t w',
    emit Normal pool_mix (fraud_of pool_mix) after_mix = Returns [t] w' /\
    Transaction.card_number t = "****-****-****-2145" /\
    Forall (fun t =>
              masked_card (Transaction.card_number t) /\
              Transaction.to_dict (fun _ => "2023-11-14T22:13:20") t
                !! "card_number"
              = Some (VStr (Transaction.card_number t))) [t].
Proof.
  eexists _, _. split; [vm_compute; reflexivity |].
  split; [reflexivity |].
  eapply (card_number_masked _ Normal pool_mix (fraud_of pool_mix) after_mix).
  vm_compute. reflexivity.
Defined.

(** C4, as the code has it.  The geographic anomaly clamps its location into
    the configured latitude and longitude ranges.  The six other patterns do
    not clamp: their location is the home coordinate of the referenced user
    plus a jitter of at most 0.5 (unusual amount), 1 (high frequency, round
    amount), 0.3 (card testing), 2 (time anomaly) or 3 (high-risk category)
    degrees on each axis. *)
Theorem fraud_locations p self w txs w' :
  run_pattern p self w = Returns txs w' ->
  Forall (location_ok p (FraudPatternGenerator.users self)) txs.
Proof.
  intros H. apply run_pattern_facts in H.
  eapply Forall_impl; [exact H |]. cbv beta. intros t [_ Hl]. exact Hl.
Qed.

Lemma fraud_locations_witness :
  exists txs w',
    run_pattern geographic_anomaly (fraud_of pool_mix) after_mix
      = Returns txs w' /\
    txs <> [] /\
    Forall (location_ok geographic_anomaly
              (FraudPatternGenerator.users (fraud_of pool_mix))) txs.
Proof.
  eexists _, _. split; [vm_compute; reflexivity |].
  split; [discriminate |].
  eapply (fraud_locations geographic_anomaly (fraud_of pool_mix) after_mix).
  vm_compute. reflexivity.
Defined.

(** C4 as stated fails: on a population the generator built itself, the
    high-risk-category pattern returns a record north of the latitude
    range. *)
Lemma fraud_location_outside_box :
  exists t w',
    TransactionGenerator.init 1 1 world_high = Returns pool_high after_high /\
    FraudPatternGenerator.generate_high_risk_category (fraud_of pool_high)
      after_high = Returns t w' /\
    (snd Config.US_LAT_RANGE < Transaction.location_lat t)%Q /\
    ~ in_box t.
Proof.
  eexists _, _. split; [vm_compute; reflexivity |].
  split; [vm_compute; reflexivity |].
  split; [vm_compute; reflexivity |].
  intros (_ & H & _). vm_compute in H. apply H. reflexivity.
Qed.

Lemma timestamps_within lo hi txs :
  txs <> [] ->
  Forall (fun t => lo <= Transaction.timestamp t <= hi) txs ->
  lo <= min_timestamp txs /\ max_timestamp txs <= hi.
Proof.
  destruct txs as [|t rest]; [congruence |]. intros _ HF.
  apply Forall_cons in HF as [Ht HF]. unfold min_timestamp, max_timestamp.
  induction HF as [|x rest Hx HF IH]; simpl; lia.
Qed.

(** C7.  A batch returned by the high-frequency generator holds between 8
    and 15 records, its latest timestamp is at most 300 seconds after its
    earliest one, and all its records carry the id of one user of the
    pool. *)
Theorem high_frequency_batch self w txs w' :
  FraudPatternGenerator.generate_high_frequency self w = Returns txs w' ->
  (8 <= length txs <= 15)%nat /\
  max_timestamp txs - min_timestamp txs <= seconds 300 /\
  exists u, u ∈ FraudPatternGenerator.users self /\
            Forall (fun t => Transaction.user_id t = User.user_id u) txs.
Proof.
  intros H.
  apply generate_high_frequency_facts in H as (user & base & Hu & Hlen & HF).
  split; [exact Hlen |]. split.
  - assert (Hne : txs <> []) by (destruct txs; simpl in Hlen; [lia | discriminate]).
    destruct (timestamps_within base (base + seconds 300) txs Hne) as [Hmin Hmax].
    + eapply Forall_impl; [exact HF |]. cbv beta.
      intros t (_ & _ & off & Hoff & ->). unfold seconds. lia.
    + lia.
  - exists user. split; [exact Hu |].
    eapply Forall_impl; [exact HF |]. cbv beta.
    intros t (_ & (u & Hin & Hid & _) & _).
    apply list_elem_of_singleton in Hin. congruence.
Qed.

Lemma high_frequency_batch_witness :
  exists txs w',
    FraudPatternGenerator.generate_high_frequency (fraud_of pool_mix) after_mix
      = Returns txs w' /\
    (8 <= length txs <= 15)%nat /\
    max_timestamp txs - min_timestamp txs <= seconds 300 /\
    exists u, u ∈ FraudPatternGenerator.users (fraud_of pool_mix) /\
              Forall (fun t => Transaction.user_id t = User.user_id u) txs.
Proof.
  eexists _, _. split; [vm_compute; reflexivity |].
  eapply (high_frequency_batch (fraud_of pool_mix) after_mix).
  vm_compute. reflexivity.
Defined.

(** Users built by the generator have a typical spending between 50 and
    500. *)
Lemma generated_users_spending n w us w' :
  TransactionGenerator._generate_users n w = Returns us w' ->
  Forall (fun u => ((50 # 1) <= User.typical_spending u)%Q /\
                   (User.typical_spending u <= (500 # 1))%Q) us.
Proof.
  intros H. unfold TransactionGenerator._generate_users in H.
  eapply repeatM_Forall in H; [apply H |].
  clear. intros w u w' H. unfold TransactionGenerator.new_user in H.
  peel H. ranges. subst u. simpl. assumption.
Qed.

(** C6.  When the users of the pool have a non-negative typical spending,
    the amount of a record returned by the unusual-amount generator is,
    within the half cent of the two-decimal rounding, at least 10 times and
    at most 20 times the typical spending of the user it refers to. *)
Theorem unusual_amount_range self w t w' :
  Forall (fun u => (0 <= User.typical_spending u)%Q)
         (FraudPatternGenerator.users self) ->
  FraudPatternGenerator.generate_unusual_amount self w = Returns t w' ->
  exists u, u ∈ FraudPatternGenerator.users self /\
    Transaction.user_id t = User.user_id u /\
    ((10 # 1) * User.typical_spending u - (1 # 200) <= Transaction.amount t)%Q /\
    (Transaction.amount t <= (20 # 1) * User.typical_spending u + (1 # 200))%Q.
Proof.
  intros Hpos H. unfold FraudPatternGenerator.generate_unusual_amount in H.
  peel H. ranges. subst t. simpl.
  exists x. split; [assumption |]. split; [reflexivity |].
  rewrite Forall_forall in Hpos. specialize (Hpos x Hc).
  destruct (round2_close (User.typical_spending x * x1)) as [Hlo Hhi].
  destruct Hc1 as [Hf1 Hf2].
  split; nra.
Qed.

Lemma unusual_amount_range_witness :
  exists t w',
    FraudPatternGenerator.generate_unusual_amount (fraud_of pool_mix) after_mix
      = Returns t w' /\
    exists u, u ∈ FraudPatternGenerator.users (fraud_of pool_mix) /\
      Transaction.user_id t = User.user_id u /\
      ((10 # 1) * User.typical_spending u - (1 # 200)
       <= Transaction.amount t)%Q /\
      (Transaction.amount t
       <= (20 # 1) * User.typical_spending u + (1 # 200))%Q.
Proof.
  eexists _, _. split; [vm_compute; reflexivity |].
  eapply (unusual_amount_range (fraud_of pool_mix) after_mix).
  - vm_compute. repeat (constructor; [discriminate |]). constructor.
  - vm_compute. reflexivity.
Defined.

(** Refutes membership in a list of distinct constants. *)
Ltac not_member :=
  let Hin := fresh "Hin" in
  intros Hin;
  repeat (apply elem_of_cons in Hin as [Hin | Hin]; [discriminate |]);
  inversion Hin.

(** C8.  [generate_random_fraud] draws one index below five, runs the
    generator its five-entry table holds there, and returns that generator's
    single record.  The table holds, in this order, the unusual-amount,
    geographic-anomaly, time-anomaly, round-amount and high-risk-category
    generators, each once; the two burst patterns are not in it. *)
Theorem random_fraud_single_pattern self w t w' :
  FraudPatternGenerator.generate_random_fraud self w = Returns t w' ->
  length (FraudPatternGenerator.fraud_generators self) = 5%nat /\
  NoDup single_patterns /\
  (high_frequency ∉ single_patterns) /\
  (card_testing ∉ single_patterns) /\
  exists p,
    single_patterns !! N.to_nat (rand w (tick w) mod 5) = Some p /\
    run_pattern p self (advance w) = Returns [t] w' /\
    Transaction.fraud_type t = Some (tag p).
Proof.
  intros H. split; [reflexivity |].
  split; [unfold single_patterns; repeat constructor; not_member |].
  split; [unfold single_patterns; not_member |].
  split; [unfold single_patterns; not_member |].
  apply generate_random_fraud_select in H as (gen & Hl & H).
  assert (Hlt : (N.to_nat (rand w (tick w) mod 5) < 5)%nat).
  { assert (5 <> 0)%N as Hne by discriminate.
    apply (N.mod_lt (rand w (tick w))) in Hne. revert Hne.
    generalize (rand w (tick w) mod 5)%N as r. intros r Hr. lia. }
  destruct (N.to_nat (rand w (tick w) mod 5)) as [|[|[|[|[|i]]]]];
    [ | | | | | lia ]; simpl in Hl; injection Hl as <-;
    eexists; (split; [reflexivity |]);
    (split; [simpl; unfold single, bind; rewrite H; reflexivity |]).
  - now apply generate_unusual_amount_facts in H as [(_ & Ht & _) _].
  - now apply generate_geographic_anomaly_facts in H as [(_ & Ht & _) _].
  - now apply generate_time_anomaly_facts in H as [(_ & Ht & _) _].
  - now apply generate_round_amount_facts in H as [(_ & Ht & _) _].
  - now apply generate_high_risk_category_facts in H as [(_ & Ht & _) _].
Qed.

Lemma random_fraud_single_pattern_witness :
  exists t w',
    FraudPatternGenerator.generate_random_fraud (fraud_of pool_mix) after_mix
      = Returns t w' /\
    exists p,
      single_patterns !! N.to_nat (rand after_mix (tick after_mix) mod 5)
        = Some p /\
      run_pattern p (fraud_of pool_mix) (advance after_mix) = Returns [t] w' /\
      Transaction.fraud_type t = Some (tag p).
Proof.
  eexists _, _. split; [vm_compute; reflexivity |].
  refine (proj2 (proj2 (proj2 (proj2
            (random_fraud_single_pattern (fraud_of pool_mix) after_mix
               _ _ _))))).
  vm_compute. reflexivity.
Defined.

Lemma new_merchant_category w m w' :
  TransactionGenerator.new_merchant w = Returns m w' ->
  Merchant.category m ∈ Config.MERCHANT_CATEGORIES.
Proof.
  intros H. unfold TransactionGenerator.new_merchant in H.
  peel H. ranges. subst m. simpl. assumption.
Qed.

Lemma high_risk_configured c :
  c ∈ Config.MERCHANT_CATEGORIES ->
  c ∈ FraudPatternGenerator.high_risk_categories ->
  c = "electronics" \/ c = "online_retail".
Proof.
  unfold Config.MERCHANT_CATEGORIES, FraudPatternGenerator.high_risk_categories.
  intros Hc Hh.
  apply elem_of_cons in Hh as [-> | Hh]; [auto |].
  apply elem_of_cons in Hh as [-> | Hh].
  - repeat (apply elem_of_cons in Hc as [Hc | Hc]; [discriminate |]).
    inversion Hc.
  - apply elem_of_cons in Hh as [-> | Hh]; [auto | inversion Hh].
Qed.

(** C9.  ["jewelry"] is named by the high-risk filter but is not a configured
    merchant category.  So for a merchant pool built by
    [_generate_merchants], the filtered subset holds only merchants of
    category ["electronics"] or ["online_retail"], and when that subset is
    not empty every record the high-risk-category generator returns has one
    of these two as its [merchant_category]. *)
Theorem high_risk_effective n w ms w1 us :
  TransactionGenerator._generate_merchants n w = Returns ms w1 ->
  "jewelry" ∈ FraudPatternGenerator.high_risk_categories /\
  ("jewelry" ∉ Config.MERCHANT_CATEGORIES) /\
  Forall (fun m => Merchant.category m = "electronics" \/
                   Merchant.category m = "online_retail")
         (FraudPatternGenerator.high_risk_merchants
            (FraudPatternGenerator.mk us ms)) /\
  (FraudPatternGenerator.high_risk_merchants (FraudPatternGenerator.mk us ms)
   <> [] ->
   forall w2 t w3,
     FraudPatternGenerator.generate_high_risk_category
       (FraudPatternGenerator.mk us ms) w2 = Returns t w3 ->
     Transaction.merchant_category t = "electronics" \/
     Transaction.merchant_category t = "online_retail").
Proof.
  intros Hpool.
  assert (Hsub : Forall (fun m => Merchant.category m = "electronics" \/
                                  Merchant.category m = "online_retail")
                   (FraudPatternGenerator.high_risk_merchants
                      (FraudPatternGenerator.mk us ms))).
  { unfold TransactionGenerator._generate_merchants in Hpool.
    eapply repeatM_Forall in Hpool;
      [| intros ? ? ?; apply new_merchant_category].
    destruct Hpool as [Hcats _]. rewrite Forall_forall in Hcats.
    apply Forall_forall. intros m Hm.
    unfold FraudPatternGenerator.high_risk_merchants in Hm. simpl in Hm.
    apply list_elem_of_filter in Hm as [Hrisk Hin].
    apply high_risk_configured; auto. }
  split; [unfold FraudPatternGenerator.high_risk_categories;
          apply list_elem_of_further, list_elem_of_here |].
  split; [unfold Config.MERCHANT_CATEGORIES; not_member |].
  split; [exact Hsub |].
  intros Hne w2 t w3 H.
  apply generate_high_risk_category_facts in H as (_ & _ & Hm).
  destruct (Hm Hne) as (m & Hin & ->).
  rewrite Forall_forall in Hsub. auto.
Qed.

Lemma high_risk_effective_witness :
  exists t w',
    TransactionGenerator._generate_merchants 3 (later 24 world_mix)
      = Returns (TransactionGenerator.merchants pool_mix) after_mix /\
    FraudPatternGenerator.high_risk_merchants (fraud_of pool_mix) <> [] /\
    FraudPatternGenerator.generate_high_risk_category (fraud_of pool_mix)
      after_mix = Returns t w' /\
    (Transaction.merchant_category t = "electronics" \/
     Transaction.merchant_category t = "online_retail").
Proof.
  eexists _, _.
  split; [vm_compute; reflexivity |].
  split; [vm_compute; intros Hd; discriminate Hd |].
  split; [vm_compute; reflexivity |].
  refine (proj2 (proj2 (proj2
            (high_risk_effective 3 (later 24 world_mix)
               (TransactionGenerator.merchants pool_mix) after_mix
               (TransactionGenerator.users pool_mix) _))) _ after_mix _ _ _).
  - vm_compute. reflexivity.
  - vm_compute. intros Hd. discriminate Hd.
  - vm_compute. reflexivity.
Defined.

(** ** Population construction *)

Lemma later_add a b w : later a (later b w) = later (a + b) w.
Proof. unfold later. symmetry. apply Nat.iter_add. Qed.

(** A loop whose body always returns after exactly [k] draws returns, after
    [k * n] draws, a list of [n] results. *)
Lemma repeatM_ticks {A} (body : M A) (k : nat) :
  (forall w, exists a, body w = Returns a (later k w)) ->
  forall n w, exists l,
    repeatM n body w = Returns l (later (k * n) w) /\ length l = n.
Proof.
  intros Hbody. induction n as [|n IH]; intros w.
  - exists []. rewrite Nat.mul_0_r. split; reflexivity.
  - destruct (Hbody w) as (a & Ha).
    destruct (IH (later k w)) as (l & Hl & Hlen).
    exists (a :: l). split; [| simpl; congruence].
    simpl. unfold bind. rewrite Ha, Hl. unfold ret.
    rewrite later_add. do 2 f_equal. lia.
Qed.

Lemma new_user_runs w :
  exists u, TransactionGenerator.new_user w = Returns u (later 8 w).
Proof. eexists. reflexivity. Qed.

Lemma category_has_range c :
  c ∈ Config.MERCHANT_CATEGORIES ->
  exists r, Config.CATEGORY_SPENDING_RANGES !! c = Some r.
Proof.
  unfold Config.MERCHANT_CATEGORIES. intros Hc.
  repeat (apply elem_of_cons in Hc as [-> | Hc];
          [eexists; vm_compute; reflexivity |]).
  inversion Hc.
Qed.

Lemma new_merchant_runs w :
  exists m, TransactionGenerator.new_merchant w = Returns m (later 5 w).
Proof.
  destruct (choice_returns Config.MERCHANT_CATEGORIES w) as (c & Hc);
    [discriminate |].
  destruct (category_has_range c) as (r & Hr);
    [eapply choice_elem_of; exact Hc |].
  unfold TransactionGenerator.new_merchant.
  unfold bind at 1. rewrite Hc.
  unfold bind at 1. unfold getitem. rewrite Hr.
  eexists. reflexivity.
Qed.

(** C3, as the code has it.  Population construction never fails: it
    returns exactly [max(numUsers, 0)] users and [max(numMerchants, 0)]
    merchants, so a pool is empty when its count is not positive and
    non-empty when its count is at least 1. *)
Theorem population_construction nu nm w :
  exists g,
    TransactionGenerator.init nu nm w
      = Returns g (later (8 * Z.to_nat nu + 5 * Z.to_nat nm) w) /\
    length (TransactionGenerator.users g) = Z.to_nat nu /\
    length (TransactionGenerator.merchants g) = Z.to_nat nm /\
    (1 <= nu -> TransactionGenerator.users g <> []) /\
    (1 <= nm -> TransactionGenerator.merchants g <> []).
Proof.
  destruct (repeatM_ticks TransactionGenerator.new_user 8 new_user_runs
              (Z.to_nat nu) w) as (us & Hus & Hlu).
  destruct (repeatM_ticks TransactionGenerator.new_merchant 5
              new_merchant_runs (Z.to_nat nm) (later (8 * Z.to_nat nu) w))
    as (ms & Hms & Hlm).
  exists (TransactionGenerator.mk nu nm us ms). simpl.
  split; [| split; [exact Hlu | split; [exact Hlm |]]].
  - unfold TransactionGenerator.init,
      TransactionGenerator._generate_users,
      TransactionGenerator._generate_merchants, bind.
    rewrite Hus, Hms. unfold ret. rewrite later_add. do 2 f_equal. lia.
  - split; [intros Hn Hnil; rewrite Hnil in Hlu; simpl in Hlu; lia |].
    intros Hn Hnil; rewrite Hnil in Hlm; simpl in Hlm; lia.
Qed.

Lemma population_construction_witness :
  exists g,
    TransactionGenerator.init 3 3 world_mix = Returns g (later 39 world_mix) /\
    length (TransactionGenerator.users g) = 3%nat /\
    length (TransactionGenerator.merchants g) = 3%nat /\
    TransactionGenerator.users g <> [] /\
    TransactionGenerator.merchants g <> [].
Proof.
  destruct (population_construction 3 3 world_mix)
    as (g & Hrun & Hlu & Hlm & Hu & Hm).
  exists g. split; [exact Hrun |].
  split; [exact Hlu |]. split; [exact Hlm |].
  split; [apply Hu; lia | apply Hm; lia].
Defined.

(** C3 as stated fails: with counts that are not positive the construction
    raises nothing and returns empty pools. *)
Lemma population_construction_unchecked :
  exists g w',
    TransactionGenerator.init 0 (-2) world_low = Returns g w' /\
    TransactionGenerator.users g = [] /\
    TransactionGenerator.merchants g = [].
Proof.
  eexists _, _. split; [vm_compute; reflexivity |]. split; reflexivity.
Qed.

(** ** The unfinished fraud branch and the clamped anomaly *)

(** Whatever the draw, [generate_transaction] returns a normal record. *)
Lemma generate_transaction_never_fraud g w t w' :
  TransactionGenerator.generate_transaction g w = Returns t w' ->
  Transaction.is_fraud t = false /\ Transaction.fraud_type t = None.
Proof.
  intros H. apply generate_transaction_normal in H as (w1 & H).
  apply generate_normal_transaction_facts in H as (Hf & Ht & _). auto.
Qed.

(** C1 on the code.  On a population the generator built, with a draw
    below [FRAUD_PROBABILITY], [generate_transaction] still returns a record
    with [is_fraud = false] and no [fraud_type]: the branch taken on a
    successful trial calls the normal synthesizer. *)
Theorem fraud_branch_returns_normal :
  exists u w1 t w2,
    TransactionGenerator.init 1 1 world_low = Returns pool_low after_low /\
    random after_low = Returns u w1 /\
    (u < Config.FRAUD_PROBABILITY)%Q /\
    TransactionGenerator.generate_transaction pool_low after_low
      = Returns t w2 /\
    TransactionGenerator.generate_normal_transaction pool_low w1
      = Returns t w2 /\
    Transaction.is_fraud t = false /\
    Transaction.fraud_type t = None.
Proof.
  eexists _, _, _, _.
  split; [vm_compute; reflexivity |].
  split; [vm_compute; reflexivity |].
  split; [vm_compute; reflexivity |].
  split; [vm_compute; reflexivity |].
  split; [vm_compute; reflexivity |].
  split; reflexivity.
Qed.

(** C5 on the code.  On a population the generator built, whose single user
    lives in the north-east corner of the box, both far offsets point
    outwards and the clamp brings the location back to the corner: the
    record lies less than 5 degrees from the user's home. *)
Theorem geographic_anomaly_clamped_home :
  exists u t w',
    TransactionGenerator.init 1 1 world_high = Returns pool_high after_high /\
    TransactionGenerator.users pool_high = [u] /\
    FraudPatternGenerator.generate_geographic_anomaly (fraud_of pool_high)
      after_high = Returns t w' /\
    Transaction.user_id t = User.user_id u /\
    Transaction.fraud_type t = Some "geographic_anomaly" /\
    (Transaction.location_lat t == snd Config.US_LAT_RANGE)%Q /\
    (Transaction.location_lon t == snd Config.US_LON_RANGE)%Q /\
    (dist2 u t < 5 ^ 2)%Q.
Proof.
  eexists _, _, _.
  split; [vm_compute; reflexivity |].
  split; [vm_compute; reflexivity |].
  split; [vm_compute; reflexivity |].
  split; [reflexivity |]. split; [reflexivity |].
  split; [vm_compute; reflexivity |].
  split; [vm_compute; reflexivity |].
  vm_compute. reflexivity.
Qed.

(** ** Further properties of the generators *)

Lemma bind_returns {A B} (c : M A) (k : A -> M B) w a w1 :
  c w = Returns a w1 -> bind c k w = k a w1.
Proof. unfold bind. now intros ->. Qed.

Lemma bind_raises {A B} (c : M A) (k : A -> M B) w e :
  c w = Raises e -> bind c k w = Raises e.
Proof. unfold bind. now intros ->. Qed.

Lemma choice_empty {A} w : choice (@nil A) w = Raises IndexError.
Proof. reflexivity. Qed.

(** Rounding to cents never leaves an interval whose ends are whole
    cents. *)
Lemma round_half_even_between (a b : Z) (q : Q) :
  (inject_Z a <= q)%Q -> (q <= inject_Z b)%Q ->
  a <= round_half_even q <= b.
Proof.
  intros Ha Hb. unfold round_half_even.
  assert (Hfa : a <= Qfloor q).
  { rewrite <- (Qfloor_Z a). now apply Qfloor_resp_le. }
  assert (Hfb : Qfloor q <= b).
  { rewrite <- (Qfloor_Z b). now apply Qfloor_resp_le. }
  assert (Hhalf : (1 # 2 <= q - inject_Z (Qfloor q))%Q -> Qfloor q < b).
  { intros Hh. assert (Hlt : (inject_Z (Qfloor q) < inject_Z b)%Q) by lra.
    now rewrite <- Zlt_Qlt in Hlt. }
  destruct (Qcompare_spec (q - inject_Z (Qfloor q)) (1 # 2)) as [He|Hl|Hg].
  - assert (Qfloor q < b) by (apply Hhalf; lra).
    destruct (Z.even (Qfloor q)); lia.
  - lia.
  - assert (Qfloor q < b) by (apply Hhalf; lra). lia.
Qed.

Lemma round2_between (a b : Z) (x : Q) :
  (a # 100 <= x)%Q -> (x <= b # 100)%Q ->
  (a # 100 <= round2 x)%Q /\ (round2 x <= b # 100)%Q.
Proof.
  intros Ha Hb. unfold round2.
  destruct (round_half_even_between a b (x * 100)) as [H1 H2].
  - unfold Qle in *. simpl in *. lia.
  - unfold Qle in *. simpl in *. lia.
  - unfold Qle. simpl. lia.
Qed.

Lemma round2_cents lo hi (a b : Z) (x : Q) (t : Transaction.t) :
  (lo == a # 100)%Q -> (hi == b # 100)%Q ->
  (lo <= x)%Q /\ (x <= hi)%Q ->
  Transaction.amount t = round2 x ->
  cents_between lo hi t.
Proof.
  intros Hlo Hhi [H1 H2] Ht. unfold cents_between. rewrite Ht.
  destruct (round2_between a b x) as [Ha Hb]; [lra | lra |].
  split; [lra |]. split; [lra |]. eexists. reflexivity.
Qed.

(** The configured ranges: at least 10, at most 1000, and ordered. *)
Lemma configured_range c lo hi :
  Config.CATEGORY_SPENDING_RANGES !! c = Some (lo, hi) ->
  c ∈ Config.MERCHANT_CATEGORIES /\ 10 <= lo /\ lo <= hi /\ hi <= 1000.
Proof.
  unfold Config.CATEGORY_SPENDING_RANGES. intros H.
  apply elem_of_list_to_map_2 in H.
  unfold Config.MERCHANT_CATEGORIES.
  repeat (apply elem_of_cons in H as [[= -> -> ->] | H];
          [split; [repeat (first [apply list_elem_of_here
                                 | apply list_elem_of_further]) | lia] |]).
  inversion H.
Qed.

Lemma getitem_inv {V} (d : gmap string V) k w v w' :
  getitem d k w = Returns v w' -> d !! k = Some v /\ w' = w.
Proof.
  unfold getitem. destruct (d !! k) as [v0|]; [| discriminate].
  intros H. apply ret_inv in H as [-> ->]. auto.
Qed.

Lemma getitem_missing {V} (d : gmap string V) k w :
  d !! k = None -> getitem d k w = Raises KeyError.
Proof. unfold getitem. now intros ->. Qed.

Ltac merchant_ref_tac :=
  eexists; split; [eassumption |]; simpl; repeat split; reflexivity.

Ltac user_ref_tac :=
  eexists; split; [eassumption |]; reflexivity.

Lemma generate_normal_transaction_details g w t w' :
  TransactionGenerator.generate_normal_transaction g w = Returns t w' ->
  near_home (TransactionGenerator.users g) (7 # 10) t /\
  merchant_ref (TransactionGenerator.merchants g) t /\
  Transaction.currency t = "USD" /\
  exists lo hi,
    Config.CATEGORY_SPENDING_RANGES !! Transaction.merchant_category t
      = Some (lo, hi) /\
    cents_between (inject_Z lo) (inject_Z hi) t.
Proof.
  intros H. unfold TransactionGenerator.generate_normal_transaction in H.
  peel H.
  match goal with
  | Hg : getitem _ _ _ = Returns ?r _ |- _ =>
      apply getitem_inv in Hg as [Hg ->]; destruct r as [lo hi];
      pose proof (configured_range _ _ _ Hg) as (_ & _ & Hord & _)
  end.
  match goal with
  | Hu : uniform (inject_Z _) _ _ = Returns _ _ |- _ =>
      apply uniform_range in Hu; [| now rewrite <- Zle_Qle]
  end.
  ranges. subst t. simpl.
  split; [near_home_tac |]. split; [merchant_ref_tac |].
  split; [reflexivity |].
  exists lo, hi. split; [assumption |].
  eapply (round2_cents _ _ (lo * 100) (hi * 100)); simpl;
    [ | | eassumption | reflexivity];
    unfold Qeq; simpl; lia.
Qed.


(** X1.  A normal transaction names a user and a merchant of the pools, lies
    within 0.7 degrees of that user's home on each axis, and its amount is a
    whole number of cents inside the configured spending range of the
    merchant's category. *)
Theorem normal_transaction_shape g w t w' :
  TransactionGenerator.generate_normal_transaction g w = Returns t w' ->
  near_home (TransactionGenerator.users g) (7 # 10) t /\
  merchant_ref (TransactionGenerator.merchants g) t /\
  Transaction.currency t = "USD" /\
  exists lo hi,
    Config.CATEGORY_SPENDING_RANGES !! Transaction.merchant_category t
      = Some (lo, hi) /\
    cents_between (inject_Z lo) (inject_Z hi) t.
Proof. apply generate_normal_transaction_details. Qed.

Lemma normal_transaction_shape_witness :
  exists t w',
    TransactionGenerator.generate_normal_transaction pool_mix after_mix
      = Returns t w' /\
    near_home (TransactionGenerator.users pool_mix) (7 # 10) t /\
    merchant_ref (TransactionGenerator.merchants pool_mix) t /\
    Transaction.currency t = "USD" /\
    exists lo hi,
      Config.CATEGORY_SPENDING_RANGES !! Transaction.merchant_category t
        = Some (lo, hi) /\
      cents_between (inject_Z lo) (inject_Z hi) t.
Proof.
  eexists _, _. split; [vm_compute; reflexivity |].
  eapply (normal_transaction_shape pool_mix after_mix).
  vm_compute. reflexivity.
Defined.

(** X2.  With an empty user pool or an empty merchant pool the normal
    synthesizer raises [IndexError]. *)
Theorem normal_transaction_empty_pool g w :
  TransactionGenerator.users g = [] \/ TransactionGenerator.merchants g = [] ->
  TransactionGenerator.generate_normal_transaction g w = Raises IndexError.
Proof.
  intros [Hu | Hm]; unfold TransactionGenerator.generate_normal_transaction.
  - rewrite Hu. reflexivity.
  - destruct (TransactionGenerator.users g) as [|u us] eqn:Hus;
      [reflexivity |].
    destruct (choice_returns (u :: us) w) as (x & Hx); [discriminate |].
    erewrite bind_returns by exact Hx. rewrite Hm. reflexivity.
Qed.

Lemma normal_transaction_empty_pool_witness :
  TransactionGenerator.generate_normal_transaction
    (TransactionGenerator.mk 3 0 (TransactionGenerator.users pool_mix) [])
    after_mix = Raises IndexError.
Proof.
  apply normal_transaction_empty_pool. right. reflexivity.
Defined.

(** X3.  When no merchant of a non-empty pool has a configured category, the
    normal synthesizer raises [KeyError] at the lookup of the spending
    range. *)
Theorem normal_transaction_unknown_category g w :
  TransactionGenerator.users g <> [] ->
  TransactionGenerator.merchants g <> [] ->
  Forall (fun m => Merchant.category m ∉ Config.MERCHANT_CATEGORIES)
         (TransactionGenerator.merchants g) ->
  TransactionGenerator.generate_normal_transaction g w = Raises KeyError.
Proof.
  intros Hu Hm Hcat.
  destruct (choice_returns _ w Hu) as (u & Hcu).
  destruct (choice_returns _ (advance w) Hm) as (m & Hcm).
  unfold TransactionGenerator.generate_normal_transaction.
  erewrite bind_returns by exact Hcu.
  erewrite bind_returns by exact Hcm.
  apply bind_raises. apply getitem_missing.
  apply choice_elem_of in Hcm. rewrite Forall_forall in Hcat.
  specialize (Hcat m Hcm).
  destruct (Config.CATEGORY_SPENDING_RANGES !! Merchant.category m)
    as [[lo hi]|] eqn:E; [| reflexivity].
  apply configured_range in E as [Hin _]. contradiction.
Qed.

Lemma normal_transaction_unknown_category_witness :
  TransactionGenerator.generate_normal_transaction pool_jewelry after_mix
  = Raises KeyError.
Proof.
  apply normal_transaction_unknown_category.
  - discriminate.
  - discriminate.
  - repeat constructor. simpl. unfold Config.MERCHANT_CATEGORIES. not_member.
Defined.

Lemma init_inv nu nm w g w' :
  TransactionGenerator.init nu nm w = Returns g w' ->
  exists w1,
    TransactionGenerator._generate_users nu w
      = Returns (TransactionGenerator.users g) w1 /\
    TransactionGenerator._generate_merchants nm w1
      = Returns (TransactionGenerator.merchants g) w'.
Proof.
  intros H. unfold TransactionGenerator.init in H.
  apply bind_inv in H as (us & w1 & Hus & H).
  apply bind_inv in H as (ms & w2 & Hms & H).
  apply ret_inv in H as [<- <-]. exists w1. simpl. auto.
Qed.

Lemma generated_merchants_configured nm w ms w' :
  TransactionGenerator._generate_merchants nm w = Returns ms w' ->
  Forall (fun m => Merchant.category m ∈ Config.MERCHANT_CATEGORIES) ms /\
  length ms = Z.to_nat nm.
Proof.
  intros H. unfold TransactionGenerator._generate_merchants in H.
  eapply repeatM_Forall in H; [exact H |].
  intros ? ? ?. apply new_merchant_category.
Qed.

Lemma normal_transaction_returns g w :
  TransactionGenerator.users g <> [] ->
  TransactionGenerator.merchants g <> [] ->
  Forall (fun m => Merchant.category m ∈ Config.MERCHANT_CATEGORIES)
         (TransactionGenerator.merchants g) ->
  exists t w',
    TransactionGenerator.generate_normal_transaction g w = Returns t w'.
Proof.
  intros Hu Hm Hcat.
  destruct (choice_returns _ w Hu) as (u & Hcu).
  destruct (choice_returns _ (advance w) Hm) as (m & Hcm).
  assert (Hr : exists r,
             Config.CATEGORY_SPENDING_RANGES !! Merchant.category m = Some r).
  { apply category_has_range. rewrite Forall_forall in Hcat.
    apply Hcat. eapply choice_elem_of; exact Hcm. }
  destruct Hr as (r & Hr).
  eexists _, _.
  unfold TransactionGenerator.generate_normal_transaction.
  erewrite bind_returns by exact Hcu.
  erewrite bind_returns by exact Hcm.
  erewrite bind_returns by (unfold getitem; rewrite Hr; reflexivity).
  reflexivity.
Qed.

(** X4.  On a population the generator built with both counts at least 1,
    [generate_normal_transaction] and [generate_transaction] return a record
    in every world: no pool is empty and every merchant category has a
    configured range. *)
Theorem built_population_serves nu nm w0 g w1 w :
  1 <= nu -> 1 <= nm ->
  TransactionGenerator.init nu nm w0 = Returns g w1 ->
  (exists t w', TransactionGenerator.generate_normal_transaction g w
                = Returns t w') /\
  (exists t w', TransactionGenerator.generate_transaction g w = Returns t w').
Proof.
  intros Hnu Hnm Hinit.
  apply init_inv in Hinit as (w2 & Hus & Hms).
  apply generated_merchants_configured in Hms as [Hcat Hlm].
  unfold TransactionGenerator._generate_users in Hus.
  eapply (repeatM_Forall (fun _ => True)) in Hus; [| auto].
  destruct Hus as [_ Hlu].
  assert (Hu : TransactionGenerator.users g <> []).
  { intros E. rewrite E in Hlu. simpl in Hlu. lia. }
  assert (Hm : TransactionGenerator.merchants g <> []).
  { intros E. rewrite E in Hlm. simpl in Hlm. lia. }
  split; [now apply normal_transaction_returns |].
  unfold TransactionGenerator.generate_transaction, bind.
  destruct (random w) as [u w3|e] eqn:Hr; [| discriminate Hr].
  destruct (Qlt_le_dec u Config.FRAUD_PROBABILITY);
    now apply normal_transaction_returns.
Qed.

Lemma built_population_serves_witness :
  (exists t w', TransactionGenerator.generate_normal_transaction pool_mix
                  world_low = Returns t w') /\
  (exists t w', TransactionGenerator.generate_transaction pool_mix world_low
                = Returns t w').
Proof.
  apply (built_population_serves 3 3 world_mix pool_mix after_mix world_low);
    [lia | lia | vm_compute; reflexivity].
Defined.

(** *** When the pattern generators return and when they raise *)

Lemma repeatM_returns {A} (body : M A) :
  (forall w, exists x w', body w = Returns x w') ->
  forall n w, exists l w', repeatM n body w = Returns l w' /\ length l = n.
Proof.
  intros Hbody. induction n as [|n IH]; intros w.
  - exists [], w. split; reflexivity.
  - destruct (Hbody w) as (x & w1 & Hx).
    destruct (IH w1) as (l & w2 & Hl & Hlen).
    exists (x :: l), w2. split; [| simpl; congruence].
    simpl. erewrite bind_returns by exact Hx.
    erewrite bind_returns by exact Hl. reflexivity.
Qed.

Lemma repeatM_raises {A} (body : M A) n w e :
  (0 < n)%nat -> body w = Raises e -> repeatM n body w = Raises e.
Proof.
  intros Hn Hb. destruct n as [|n]; [lia |]. simpl. now apply bind_raises.
Qed.

Lemma bind_total {A B} (c : M A) (k : A -> M B) w :
  (exists a w1, c w = Returns a w1 /\ exists b w', k a w1 = Returns b w') ->
  exists b w', bind c k w = Returns b w'.
Proof.
  intros (a & w1 & Hc & b & w' & Hk). exists b, w'.
  now rewrite (bind_returns _ _ _ _ _ Hc).
Qed.

(** Runs the leading call of a computation that returns: a [choice] needs
    its sequence non-empty, every other call of the model always returns. *)
Ltac run_step :=
  lazymatch goal with
  | |- exists _ _, bind (choice ?l) _ ?w = _ =>
      let x := fresh "x" in
      let Hx := fresh "Hx" in
      destruct (choice_returns l w) as (x & Hx);
      [first [assumption | discriminate] |];
      apply bind_total; exists x, (advance w); split; [exact Hx |];
      cbv beta zeta
  | |- exists _ _, bind _ _ _ = _ =>
      apply bind_total; eexists _, _; split; [reflexivity |]; cbv beta zeta
  end.

Ltac runs := repeat run_step; eexists _, _; reflexivity.

Section Outcomes.
Variable self : FraudPatternGenerator.t.

Section Returns.
Hypothesis Hu : FraudPatternGenerator.users self <> [].
Hypothesis Hm : FraudPatternGenerator.merchants self <> [].

Lemma generate_unusual_amount_returns w :
  exists t w',
    FraudPatternGenerator.generate_unusual_amount self w = Returns t w'.
Proof.
  unfold FraudPatternGenerator.generate_unusual_amount. runs.
Qed.

Lemma generate_geographic_anomaly_returns w :
  exists t w',
    FraudPatternGenerator.generate_geographic_anomaly self w = Returns t w'.
Proof.
  unfold FraudPatternGenerator.generate_geographic_anomaly. runs.
Qed.

Lemma generate_time_anomaly_returns w :
  exists t w',
    FraudPatternGenerator.generate_time_anomaly self w = Returns t w'.
Proof.
  unfold FraudPatternGenerator.generate_time_anomaly. runs.
Qed.

Lemma generate_round_amount_returns w :
  exists t w',
    FraudPatternGenerator.generate_round_amount self w = Returns t w'.
Proof.
  unfold FraudPatternGenerator.generate_round_amount.
  unfold FraudPatternGenerator.round_amounts. runs.
Qed.

Lemma generate_high_risk_category_returns w :
  exists t w',
    FraudPatternGenerator.generate_high_risk_category self w = Returns t w'.
Proof.
  destruct (choice_returns _ w Hu) as (u & Hcu).
  assert (Hpick : exists m,
             match FraudPatternGenerator.high_risk_merchants self with
             | [] => choice (FraudPatternGenerator.merchants self)
             | _ :: _ => choice (FraudPatternGenerator.high_risk_merchants self)
             end (advance w) = Returns m (advance (advance w))).
  { destruct (FraudPatternGenerator.high_risk_merchants self) as [|m ms];
      apply choice_returns; [exact Hm | discriminate]. }
  destruct Hpick as (m & Hpick).
  unfold FraudPatternGenerator.generate_high_risk_category.
  apply bind_total. exists u, (advance w). split; [exact Hcu |]. cbv beta.
  apply bind_total. exists m, (advance (advance w)).
  split; [exact Hpick |]. cbv beta zeta. runs.
Qed.

Lemma high_frequency_step_returns user base w :
  exists t w',
    FraudPatternGenerator.high_frequency_step self user base w = Returns t w'.
Proof.
  unfold FraudPatternGenerator.high_frequency_step. runs.
Qed.

Lemma card_testing_step_returns user base w :
  exists t w',
    FraudPatternGenerator.card_testing_step self user base w = Returns t w'.
Proof.
  unfold FraudPatternGenerator.card_testing_step. runs.
Qed.

Lemma randint_returns a b w :
  exists n, randint a b w = Returns n (advance w).
Proof. eexists. reflexivity. Qed.

Lemma generate_high_frequency_returns w :
  exists txs w',
    FraudPatternGenerator.generate_high_frequency self w = Returns txs w' /\
    txs <> [].
Proof.
  destruct (choice_returns _ w Hu) as (u & Hcu).
  destruct (randint_returns 8 15 (advance w)) as (n & Hn).
  pose proof (randint_range 8 15 _ _ _ ltac:(lia) Hn) as Hrange.
  destruct (repeatM_returns _ (high_frequency_step_returns u
              (clock w (S (S (tick w))))) (Z.to_nat n)
              (advance (advance (advance w)))) as (l & w' & Hl & Hlen).
  exists l, w'. split.
  - unfold FraudPatternGenerator.generate_high_frequency.
    rewrite (bind_returns _ _ _ _ _ Hcu). cbv beta.
    rewrite (bind_returns _ _ _ _ _ Hn). cbv beta.
    erewrite bind_returns by reflexivity. exact Hl.
  - intros E. rewrite E in Hlen. simpl in Hlen. lia.
Qed.

Lemma generate_card_testing_returns w :
  exists txs w',
    FraudPatternGenerator.generate_card_testing self w = Returns txs w' /\
    txs <> [].
Proof.
  destruct (choice_returns _ w Hu) as (u & Hcu).
  destruct (randint_returns 5 10 (advance w)) as (n & Hn).
  pose proof (randint_range 5 10 _ _ _ ltac:(lia) Hn) as Hrange.
  destruct (repeatM_returns _ (card_testing_step_returns u
              (clock w (S (S (tick w))))) (Z.to_nat n)
              (advance (advance (advance w)))) as (l & w' & Hl & Hlen).
  exists l, w'. split.
  - unfold FraudPatternGenerator.generate_card_testing.
    rewrite (bind_returns _ _ _ _ _ Hcu). cbv beta.
    rewrite (bind_returns _ _ _ _ _ Hn). cbv beta.
    erewrite bind_returns by reflexivity. exact Hl.
  - intros E. rewrite E in Hlen. simpl in Hlen. lia.
Qed.

Lemma single_returns {A} (c : M A) w :
  (exists x w', c w = Returns x w') ->
  exists l w', single c w = Returns l w' /\ l <> [].
Proof.
  intros (x & w' & Hx). exists [x], w'. split; [| discriminate].
  unfold single. erewrite bind_returns by exact Hx. reflexivity.
Qed.

End Returns.
End Outcomes.

Ltac raises_with unfolding :=
  let Hu := fresh "Hu" in
  let Hm := fresh "Hm" in
  intros [Hu | Hm]; unfolding;
  [ rewrite Hu; reflexivity
  | match goal with
    | |- context [FraudPatternGenerator.users ?self] =>
        let u := fresh "u" in
        let us := fresh "us" in
        let x := fresh "x" in
        let Hx := fresh "Hx" in
        destruct (FraudPatternGenerator.users self) as [|u us];
        [ reflexivity
        | match goal with
          | |- bind (choice _) _ ?w = _ =>
              destruct (choice_returns (u :: us) w) as (x & Hx);
              [discriminate |];
              rewrite (bind_returns _ _ _ _ _ Hx); cbv beta
          end ]
    end ].

Section Raises.
Variable self : FraudPatternGenerator.t.

Lemma generate_unusual_amount_raises w :
  FraudPatternGenerator.users self = [] \/
  FraudPatternGenerator.merchants self = [] ->
  FraudPatternGenerator.generate_unusual_amount self w = Raises IndexError.
Proof.
  raises_with ltac:(unfold FraudPatternGenerator.generate_unusual_amount).
  rewrite Hm. reflexivity.
Qed.

Lemma generate_geographic_anomaly_raises w :
  FraudPatternGenerator.users self = [] \/
  FraudPatternGenerator.merchants self = [] ->
  FraudPatternGenerator.generate_geographic_anomaly self w = Raises IndexError.
Proof.
  raises_with ltac:(unfold FraudPatternGenerator.generate_geographic_anomaly).
  rewrite Hm. reflexivity.
Qed.

Lemma generate_time_anomaly_raises w :
  FraudPatternGenerator.users self = [] \/
  FraudPatternGenerator.merchants self = [] ->
  FraudPatternGenerator.generate_time_anomaly self w = Raises IndexError.
Proof.
  raises_with ltac:(unfold FraudPatternGenerator.generate_time_anomaly).
  rewrite Hm. reflexivity.
Qed.

Lemma generate_round_amount_raises w :
  FraudPatternGenerator.users self = [] \/
  FraudPatternGenerator.merchants self = [] ->
  FraudPatternGenerator.generate_round_amount self w = Raises IndexError.
Proof.
  raises_with ltac:(unfold FraudPatternGenerator.generate_round_amount).
  rewrite Hm. reflexivity.
Qed.

Lemma generate_high_risk_category_raises w :
  FraudPatternGenerator.users self = [] \/
  FraudPatternGenerator.merchants self = [] ->
  FraudPatternGenerator.generate_high_risk_category self w = Raises IndexError.
Proof.
  raises_with ltac:(unfold FraudPatternGenerator.generate_high_risk_category,
                      FraudPatternGenerator.high_risk_merchants).
  rewrite Hm. reflexivity.
Qed.

Lemma generate_high_frequency_raises w :
  FraudPatternGenerator.users self = [] \/
  FraudPatternGenerator.merchants self = [] ->
  FraudPatternGenerator.generate_high_frequency self w = Raises IndexError.
Proof.
  raises_with ltac:(unfold FraudPatternGenerator.generate_high_frequency).
  destruct (randint_returns 8 15 (advance w)) as (n & Hn).
  pose proof (randint_range 8 15 _ _ _ ltac:(lia) Hn) as Hrange.
  rewrite (bind_returns _ _ _ _ _ Hn). cbv beta.
  erewrite bind_returns by reflexivity.
  apply repeatM_raises; [lia |].
  unfold FraudPatternGenerator.high_frequency_step. rewrite Hm. reflexivity.
Qed.

Lemma generate_card_testing_raises w :
  FraudPatternGenerator.users self = [] \/
  FraudPatternGenerator.merchants self = [] ->
  FraudPatternGenerator.generate_card_testing self w = Raises IndexError.
Proof.
  raises_with ltac:(unfold FraudPatternGenerator.generate_card_testing).
  destruct (randint_returns 5 10 (advance w)) as (n & Hn).
  pose proof (randint_range 5 10 _ _ _ ltac:(lia) Hn) as Hrange.
  rewrite (bind_returns _ _ _ _ _ Hn). cbv beta.
  erewrite bind_returns by reflexivity.
  apply repeatM_raises; [lia |].
  unfold FraudPatternGenerator.card_testing_step. rewrite Hm. reflexivity.
Qed.

End Raises.

Lemma fraud_generators_index self w :
  exists gen,
    choice (FraudPatternGenerator.fraud_generators self) w
      = Returns gen (advance w) /\
    gen ∈ FraudPatternGenerator.fraud_generators self.
Proof.
  destruct (choice_returns (FraudPatternGenerator.fraud_generators self) w)
    as (gen & Hgen); [discriminate |].
  exists gen. split; [exact Hgen | eapply choice_elem_of; exact Hgen].
Qed.

(** X5.  With a non-empty user pool and a non-empty merchant pool, each of
    the seven pattern generators returns at least one record, and
    [generate_random_fraud] returns a record, in every world. *)
Theorem fraud_generators_return self w :
  FraudPatternGenerator.users self <> [] ->
  FraudPatternGenerator.merchants self <> [] ->
  (forall p, exists txs w', run_pattern p self w = Returns txs w' /\ txs <> [])
  /\ exists t w',
       FraudPatternGenerator.generate_random_fraud self w = Returns t w'.
Proof.
  intros Hu Hm. split.
  - intros p. destruct p; simpl.
    + apply single_returns. now apply generate_unusual_amount_returns.
    + apply single_returns. now apply generate_geographic_anomaly_returns.
    + now apply generate_high_frequency_returns.
    + now apply generate_card_testing_returns.
    + apply single_returns. now apply generate_time_anomaly_returns.
    + apply single_returns. now apply generate_round_amount_returns.
    + apply single_returns. now apply generate_high_risk_category_returns.
  - destruct (fraud_generators_index self w) as (gen & Hgen & Hin).
    unfold FraudPatternGenerator.generate_random_fraud.
    apply bind_total. exists gen, (advance w). split; [exact Hgen |].
    unfold FraudPatternGenerator.fraud_generators in Hin.
    repeat (apply elem_of_cons in Hin as [-> | Hin]).
    + now apply generate_unusual_amount_returns.
    + now apply generate_geographic_anomaly_returns.
    + now apply generate_time_anomaly_returns.
    + now apply generate_round_amount_returns.
    + now apply generate_high_risk_category_returns.
    + inversion Hin.
Qed.

Lemma fraud_generators_return_witness :
  (forall p, exists txs w',
      run_pattern p (fraud_of pool_mix) after_mix = Returns txs w' /\
      txs <> [])
  /\ exists t w',
       FraudPatternGenerator.generate_random_fraud (fraud_of pool_mix)
         after_mix = Returns t w'.
Proof.
  apply fraud_generators_return; vm_compute; intros Hd; discriminate Hd.
Defined.

(** X6.  With an empty user pool or an empty merchant pool, each of the
    seven pattern generators and [generate_random_fraud] raises
    [IndexError]; the high-risk fallback does not rescue an empty merchant
    pool. *)
Theorem fraud_generators_raise self w :
  FraudPatternGenerator.users self = [] \/
  FraudPatternGenerator.merchants self = [] ->
  (forall p, run_pattern p self w = Raises IndexError) /\
  FraudPatternGenerator.generate_random_fraud self w = Raises IndexError.
Proof.
  intros Hempty. split.
  - intros p. destruct p; simpl; unfold single.
    + apply bind_raises. now apply generate_unusual_amount_raises.
    + apply bind_raises. now apply generate_geographic_anomaly_raises.
    + now apply generate_high_frequency_raises.
    + now apply generate_card_testing_raises.
    + apply bind_raises. now apply generate_time_anomaly_raises.
    + apply bind_raises. now apply generate_round_amount_raises.
    + apply bind_raises. now apply generate_high_risk_category_raises.
  - destruct (fraud_generators_index self w) as (gen & Hgen & Hin).
    unfold FraudPatternGenerator.generate_random_fraud.
    rewrite (bind_returns _ _ _ _ _ Hgen).
    unfold FraudPatternGenerator.fraud_generators in Hin.
    repeat (apply elem_of_cons in Hin as [-> | Hin]).
    + now apply generate_unusual_amount_raises.
    + now apply generate_geographic_anomaly_raises.
    + now apply generate_time_anomaly_raises.
    + now apply generate_round_amount_raises.
    + now apply generate_high_risk_category_raises.
    + inversion Hin.
Qed.

Lemma fraud_generators_raise_witness :
  (forall p, run_pattern p no_merchants after_mix = Raises IndexError) /\
  FraudPatternGenerator.generate_random_fraud no_merchants after_mix
  = Raises IndexError.
Proof.
  apply fraud_generators_raise. right. reflexivity.
Defined.

(** *** References and amounts of the pattern records *)

Ltac cents_tac a b :=
  eapply (round2_cents _ _ a b);
  [ unfold Qeq; simpl; lia | unfold Qeq; simpl; lia
  | eassumption | reflexivity ].

Ltac details_tac a b :=
  split; [user_ref_tac |]; split; [merchant_ref_tac |];
  split; [reflexivity |]; unfold amount_ok; simpl; cents_tac a b.

Lemma generate_unusual_amount_details self w t w' :
  FraudPatternGenerator.generate_unusual_amount self w = Returns t w' ->
  pattern_details unusual_amount (FraudPatternGenerator.users self)
    (FraudPatternGenerator.merchants self) t.
Proof.
  intros H. unfold FraudPatternGenerator.generate_unusual_amount in H.
  peel H. ranges. subst t.
  split; [user_ref_tac |]. split; [merchant_ref_tac |].
  split; [reflexivity |]. unfold amount_ok, scaled_amount. simpl.
  eexists _, _. split; [eassumption |]. split; [reflexivity |].
  match goal with
  | Hf : ((10 # 1 <= ?f)%Q /\ _) |- _ =>
      destruct Hf as [Hf1 Hf2]; split; [exact Hf1 |]; split; [exact Hf2 |]
  end.
  reflexivity.
Qed.

Lemma generate_geographic_anomaly_details self w t w' :
  FraudPatternGenerator.generate_geographic_anomaly self w = Returns t w' ->
  pattern_details geographic_anomaly (FraudPatternGenerator.users self)
    (FraudPatternGenerator.merchants self) t.
Proof.
  intros H. unfold FraudPatternGenerator.generate_geographic_anomaly in H.
  peel H. ranges. subst t. details_tac 10000 50000.
Qed.

Lemma generate_time_anomaly_details self w t w' :
  FraudPatternGenerator.generate_time_anomaly self w = Returns t w' ->
  pattern_details time_anomaly (FraudPatternGenerator.users self)
    (FraudPatternGenerator.merchants self) t.
Proof.
  intros H. unfold FraudPatternGenerator.generate_time_anomaly in H.
  peel H. ranges. subst t. details_tac 10000 80000.
Qed.

Lemma round_amounts_cents a :
  a ∈ FraudPatternGenerator.round_amounts ->
  ((100 # 1) <= a)%Q /\ (a <= (1500 # 1))%Q /\ exists z : Z, (a == z # 100)%Q.
Proof.
  unfold FraudPatternGenerator.round_amounts. intros Ha.
  repeat (apply elem_of_cons in Ha as [-> | Ha];
          [split; [unfold Qle; simpl; lia |];
           split; [unfold Qle; simpl; lia |];
           match goal with
           | |- exists z : Z, (?n # 1 == z # 100)%Q =>
               exists (n * 100); vm_compute; reflexivity
           end |]).
  inversion Ha.
Qed.

Lemma generate_round_amount_details self w t w' :
  FraudPatternGenerator.generate_round_amount self w = Returns t w' ->
  pattern_details round_amount (FraudPatternGenerator.users self)
    (FraudPatternGenerator.merchants self) t /\
  Transaction.amount t ∈ FraudPatternGenerator.round_amounts.
Proof.
  intros H. unfold FraudPatternGenerator.generate_round_amount in H.
  peel H. ranges. subst t.
  match goal with
  | Ha : _ ∈ FraudPatternGenerator.round_amounts |- _ =>
      pose proof (round_amounts_cents _ Ha) as Hcents
  end.
  split; [| simpl; assumption].
  split; [user_ref_tac |]. split; [merchant_ref_tac |].
  split; [reflexivity |]. exact Hcents.
Qed.

Lemma generate_high_risk_category_details self w t w' :
  FraudPatternGenerator.generate_high_risk_category self w = Returns t w' ->
  pattern_details high_risk_category (FraudPatternGenerator.users self)
    (FraudPatternGenerator.merchants self) t /\
  (FraudPatternGenerator.high_risk_merchants self = [] ->
   Transaction.merchant_category t ∉ FraudPatternGenerator.high_risk_categories).
Proof.
  intros H. unfold FraudPatternGenerator.generate_high_risk_category in H.
  peel H.
  match goal with
  | Hpick : (match FraudPatternGenerator.high_risk_merchants self with
             | [] => _ | _ :: _ => _ end) _ = Returns ?m _ |- _ =>
      assert (Hin : m ∈ FraudPatternGenerator.merchants self /\
                (FraudPatternGenerator.high_risk_merchants self = [] ->
                 Merchant.category m
                   ∉ FraudPatternGenerator.high_risk_categories));
      [ destruct (FraudPatternGenerator.high_risk_merchants self)
          as [|m0 ms0] eqn:E;
        [ apply choice_elem_of in Hpick; split; [exact Hpick |];
          intros _ Hrisk;
          assert (Hf : m ∈ FraudPatternGenerator.high_risk_merchants self)
            by (apply list_elem_of_filter; split; assumption);
          rewrite E in Hf; inversion Hf
        | apply choice_elem_of in Hpick; split; [| discriminate];
          rewrite <- E in Hpick;
          apply list_elem_of_filter in Hpick; apply Hpick ]
      | clear Hpick; destruct Hin as [Hin Hfall] ]
  end.
  ranges. subst t. split; [details_tac 200000 500000 |].
  simpl. exact Hfall.
Qed.

Lemma high_frequency_step_details self user base w t w' :
  FraudPatternGenerator.high_frequency_step self user base w = Returns t w' ->
  pattern_details high_frequency [user]
    (FraudPatternGenerator.merchants self) t.
Proof.
  intros H. unfold FraudPatternGenerator.high_frequency_step in H.
  peel H. ranges. subst t.
  split; [exists user; split; [apply list_elem_of_here | reflexivity] |].
  split; [merchant_ref_tac |]. split; [reflexivity |].
  unfold amount_ok; simpl; cents_tac 5000 30000.
Qed.

Lemma card_testing_step_details self user base w t w' :
  FraudPatternGenerator.card_testing_step self user base w = Returns t w' ->
  pattern_details card_testing [user]
    (FraudPatternGenerator.merchants self) t /\
  exists off, 0 <= off <= 30 /\
    Transaction.timestamp t = base + minutes off.
Proof.
  intros H. unfold FraudPatternGenerator.card_testing_step in H.
  peel H. ranges. subst t. split.
  - split; [exists user; split; [apply list_elem_of_here | reflexivity] |].
    split; [merchant_ref_tac |]. split; [reflexivity |].
    unfold amount_ok; simpl; cents_tac 50 500.
  - simpl. eexists. split; [eassumption | reflexivity].
Qed.

Lemma pattern_details_member p user us ms t :
  user ∈ us -> pattern_details p [user] ms t -> pattern_details p us ms t.
Proof.
  intros Hin ((u & Hu & Hid) & Hm & Hc & Ha).
  apply list_elem_of_singleton in Hu. subst u.
  split; [exists user; auto |]. split; [exact Hm |]. split; [exact Hc |].
  unfold amount_ok in *. destruct (amount_range p) as [[lo hi]|]; [exact Ha |].
  destruct Ha as (u & f & Hu & Hrest).
  apply list_elem_of_singleton in Hu. subst u. exists user, f. auto.
Qed.

Lemma run_pattern_details p self w txs w' :
  run_pattern p self w = Returns txs w' ->
  Forall (pattern_details p (FraudPatternGenerator.users self)
            (FraudPatternGenerator.merchants self)) txs.
Proof.
  intros H. destruct p; simpl in H.
  - apply single_inv in H as (t & H & ->). apply Forall_singleton.
    now apply generate_unusual_amount_details in H.
  - apply single_inv in H as (t & H & ->). apply Forall_singleton.
    now apply generate_geographic_anomaly_details in H.
  - unfold FraudPatternGenerator.generate_high_frequency in H.
    apply bind_inv in H as (user & w1 & Hu & H).
    apply bind_inv in H as (n & w2 & _ & H).
    apply bind_inv in H as (base & w3 & _ & H).
    apply choice_elem_of in Hu.
    eapply repeatM_Forall in H;
      [| intros ? ? ?; apply high_frequency_step_details].
    destruct H as [HF _]. eapply Forall_impl; [exact HF |]. cbv beta.
    intros t Ht. eapply pattern_details_member; eauto.
  - unfold FraudPatternGenerator.generate_card_testing in H.
    apply bind_inv in H as (user & w1 & Hu & H).
    apply bind_inv in H as (n & w2 & _ & H).
    apply bind_inv in H as (base & w3 & _ & H).
    apply choice_elem_of in Hu.
    eapply repeatM_Forall in H;
      [| intros ? ? ?; apply card_testing_step_details].
    destruct H as [HF _]. eapply Forall_impl; [exact HF |]. cbv beta.
    intros t [Ht _]. eapply pattern_details_member; eauto.
  - apply single_inv in H as (t & H & ->). apply Forall_singleton.
    now apply generate_time_anomaly_details in H.
  - apply single_inv in H as (t & H & ->). apply Forall_singleton.
    now apply generate_round_amount_details in H.
  - apply single_inv in H as (t & H & ->). apply Forall_singleton.
    now apply generate_high_risk_category_details in H.
Qed.

Lemma generate_random_fraud_details self w t w' :
  FraudPatternGenerator.generate_random_fraud self w = Returns t w' ->
  exists p, p ∈ single_patterns /\
    pattern_details p (FraudPatternGenerator.users self)
      (FraudPatternGenerator.merchants self) t.
Proof.
  intros H. unfold FraudPatternGenerator.generate_random_fraud in H.
  apply bind_inv in H as (gen & w1 & Hc & H).
  apply choice_elem_of in Hc.
  unfold FraudPatternGenerator.fraud_generators in Hc.
  unfold single_patterns.
  repeat (apply elem_of_cons in Hc as [-> | Hc]).
  - exists unusual_amount. split; [apply list_elem_of_here |].
    now apply generate_unusual_amount_details in H.
  - exists geographic_anomaly.
    split; [apply list_elem_of_further, list_elem_of_here |].
    now apply generate_geographic_anomaly_details in H.
  - exists time_anomaly.
    split; [do 2 apply list_elem_of_further; apply list_elem_of_here |].
    now apply generate_time_anomaly_details in H.
  - exists round_amount.
    split; [do 3 apply list_elem_of_further; apply list_elem_of_here |].
    now apply generate_round_amount_details in H.
  - exists high_risk_category.
    split; [do 4 apply list_elem_of_further; apply list_elem_of_here |].
    now apply generate_high_risk_category_details in H.
  - inversion Hc.
Qed.

Lemma near_home_user_ref us j t : near_home us j t -> user_ref us t.
Proof. intros (u & Hu & Hid & _). exists u. auto. Qed.

(** X7.  Every record returned by the normal synthesizer, by
    [generate_transaction], by a pattern generator or by
    [generate_random_fraud] carries the id of a user of the pool it was
    drawn from, the id, name and category of one merchant of that pool, and
    the currency ["USD"]. *)
Theorem records_reference_pools s g fp w txs w' :
  emit s g fp w = Returns txs w' ->
  Forall (fun t => user_ref (users_behind s g fp) t /\
                   merchant_ref (merchants_behind s g fp) t /\
                   Transaction.currency t = "USD") txs.
Proof.
  intros H. destruct s as [| |p|]; simpl in *.
  - apply single_inv in H as (t & H & ->). apply Forall_singleton.
    apply generate_normal_transaction_details in H as (Hn & Hm & Hc & _).
    eauto using near_home_user_ref.
  - apply single_inv in H as (t & H & ->). apply Forall_singleton.
    apply generate_transaction_normal in H as (w1 & H).
    apply generate_normal_transaction_details in H as (Hn & Hm & Hc & _).
    eauto using near_home_user_ref.
  - apply run_pattern_details in H.
    eapply Forall_impl; [exact H |]. cbv beta.
    intros t (Hu & Hm & Hc & _). auto.
  - apply single_inv in H as (t & H & ->). apply Forall_singleton.
    apply generate_random_fraud_details in H as (p & _ & Hu & Hm & Hc & _).
    auto.
Qed.

Lemma records_reference_pools_witness :
  exists txs w',
    emit (Fraud high_frequency) pool_mix (fraud_of pool_mix) after_mix
      = Returns txs w' /\
    Forall (fun t =>
              user_ref (users_behind (Fraud high_frequency) pool_mix
                          (fraud_of pool_mix)) t /\
              merchant_ref (merchants_behind (Fraud high_frequency) pool_mix
                              (fraud_of pool_mix)) t /\
              Transaction.currency t = "USD") txs.
Proof.
  eexists _, _. split; [vm_compute; reflexivity |].
  eapply (records_reference_pools (Fraud high_frequency) pool_mix
            (fraud_of pool_mix) after_mix).
  vm_compute. reflexivity.
Defined.

(** X8.  The amounts of the patterns: a whole number of cents between 100
    and 500 for the geographic anomaly, 50 and 300 for high frequency, 0.50
    and 5.00 for card testing, 100 and 800 for the time anomaly, 100 and 1500
    for the round amount, 2000 and 5000 for the high-risk category.  The
    unusual amount is the typical spending of the user the record names
    times a factor between 10 and 20, rounded to cents. *)
Theorem pattern_amounts p self w txs w' :
  run_pattern p self w = Returns txs w' ->
  Forall (amount_ok p (FraudPatternGenerator.users self)) txs.
Proof.
  intros H. apply run_pattern_details in H.
  eapply Forall_impl; [exact H |]. cbv beta. intros t (_ & _ & _ & Ha).
  exact Ha.
Qed.

Lemma pattern_amounts_witness :
  exists txs w',
    run_pattern high_risk_category (fraud_of pool_mix) after_mix
      = Returns txs w' /\
    txs <> [] /\
    Forall (amount_ok high_risk_category
              (FraudPatternGenerator.users (fraud_of pool_mix))) txs.
Proof.
  eexists _, _. split; [vm_compute; reflexivity |].
  split; [discriminate |].
  eapply (pattern_amounts high_risk_category (fraud_of pool_mix) after_mix).
  vm_compute. reflexivity.
Defined.

(** X9.  A batch returned by the card-testing generator holds between 5 and
    10 records, each with an amount between 0.50 and 5.00; its latest
    timestamp is at most 30 minutes after its earliest one, and all its
    records carry the id of one user of the pool. *)
Theorem card_testing_batch self w txs w' :
  FraudPatternGenerator.generate_card_testing self w = Returns txs w' ->
  (5 <= length txs <= 10)%nat /\
  Forall (cents_between (50 # 100) (500 # 100)) txs /\
  max_timestamp txs - min_timestamp txs <= minutes 30 /\
  exists u, u ∈ FraudPatternGenerator.users self /\
            Forall (fun t => Transaction.user_id t = User.user_id u) txs.
Proof.
  intros H. unfold FraudPatternGenerator.generate_card_testing in H.
  apply bind_inv in H as (user & w1 & Hu & H).
  apply bind_inv in H as (n & w2 & Hn & H).
  apply bind_inv in H as (base & w3 & _ & H).
  apply choice_elem_of in Hu. apply randint_range in Hn; [| lia].
  eapply repeatM_Forall in H;
    [| intros ? ? ?; apply card_testing_step_details].
  destruct H as [HF Hlen].
  split; [lia |]. split; [| split].
  - eapply Forall_impl; [exact HF |]. cbv beta.
    intros t [(_ & _ & _ & Ha) _]. exact Ha.
  - assert (Hne : txs <> [])
      by (destruct txs; simpl in Hlen; [lia | discriminate]).
    destruct (timestamps_within base (base + minutes 30) txs Hne)
      as [Hmin Hmax].
    + eapply Forall_impl; [exact HF |]. cbv beta.
      intros t (_ & off & Hoff & ->). unfold minutes. lia.
    + lia.
  - exists user. split; [exact Hu |].
    eapply Forall_impl; [exact HF |]. cbv beta.
    intros t [((u & Hin & Hid) & _) _].
    apply list_elem_of_singleton in Hin. congruence.
Qed.

Lemma card_testing_batch_witness :
  exists txs w',
    FraudPatternGenerator.generate_card_testing (fraud_of pool_mix) after_mix
      = Returns txs w' /\
    (5 <= length txs <= 10)%nat /\
    Forall (cents_between (50 # 100) (500 # 100)) txs /\
    max_timestamp txs - min_timestamp txs <= minutes 30 /\
    exists u, u ∈ FraudPatternGenerator.users (fraud_of pool_mix) /\
              Forall (fun t => Transaction.user_id t = User.user_id u) txs.
Proof.
  eexists _, _. split; [vm_compute; reflexivity |].
  eapply (card_testing_batch (fraud_of pool_mix) after_mix).
  vm_compute. reflexivity.
Defined.

(** X10.  The amount of a record returned by the round-amount generator is
    one of the seven values 100, 200, 250, 500, 750, 1000 and 1500. *)
Theorem round_amount_vocabulary self w t w' :
  FraudPatternGenerator.generate_round_amount self w = Returns t w' ->
  Transaction.amount t ∈ FraudPatternGenerator.round_amounts.
Proof.
  intros H. now apply generate_round_amount_details in H.
Qed.

Lemma round_amount_vocabulary_witness :
  exists t w',
    FraudPatternGenerator.generate_round_amount (fraud_of pool_mix) after_mix
      = Returns t w' /\
    Transaction.amount t ∈ FraudPatternGenerator.round_amounts.
Proof.
  eexists _, _. split; [vm_compute; reflexivity |].
  eapply (round_amount_vocabulary (fraud_of pool_mix) after_mix).
  vm_compute. reflexivity.
Defined.

(** X11.  When no merchant of the pool has a high-risk category, the
    high-risk-category generator does not fail: it picks among all merchants,
    so the record it returns names a merchant of the pool whose category is
    not a high-risk one. *)
Theorem high_risk_fallback self w t w' :
  FraudPatternGenerator.high_risk_merchants self = [] ->
  FraudPatternGenerator.generate_high_risk_category self w = Returns t w' ->
  merchant_ref (FraudPatternGenerator.merchants self) t /\
  (Transaction.merchant_category t
     ∉ FraudPatternGenerator.high_risk_categories) /\
  Transaction.fraud_type t = Some "high_risk_category".
Proof.
  intros Hnone H.
  pose proof (generate_high_risk_category_facts _ _ _ _ H) as ((_ & Ht & _) & _).
  apply generate_high_risk_category_details in H as [(_ & Hm & _) Hfall].
  split; [exact Hm |]. split; [now apply Hfall | exact Ht].
Qed.

Lemma high_risk_fallback_witness :
  exists t w',
    FraudPatternGenerator.generate_high_risk_category pool_grocery after_mix
      = Returns t w' /\
    Transaction.merchant_category t = "grocery" /\
    merchant_ref (FraudPatternGenerator.merchants pool_grocery) t /\
    (Transaction.merchant_category t
       ∉ FraudPatternGenerator.high_risk_categories) /\
    Transaction.fraud_type t = Some "high_risk_category".
Proof.
  eexists _, _. split; [vm_compute; reflexivity |].
  split; [reflexivity |].
  eapply (high_risk_fallback pool_grocery after_mix).
  - vm_compute. reflexivity.
  - vm_compute. reflexivity.
Defined.

(** *** The time anomaly *)

Lemma replace_hour_minute_fields t h m :
  0 <= h < 24 -> 0 <= m < 60 ->
  date_of (replace_hour_minute t h m) = date_of t /\
  hour_of (replace_hour_minute t h m) = h /\
  minute_of (replace_hour_minute t h m) = m /\
  second_of (replace_hour_minute t h m) = second_of t /\
  microsecond_of (replace_hour_minute t h m) = microsecond_of t.
Proof.
  intros Hh Hm.
  unfold date_of, hour_of, minute_of, second_of, microsecond_of,
    replace_hour_minute, day_us.
  repeat split; Z.div_mod_to_equations; lia.
Qed.

(** X12.  The timestamp of a record returned by the time-anomaly generator
    has its hour between 1 and 5 and its minute between 0 and 59, and keeps
    the date, the second and the microsecond of the clock reading it was
    made from. *)
Theorem time_anomaly_window self w t w' :
  FraudPatternGenerator.generate_time_anomaly self w = Returns t w' ->
  1 <= hour_of (Transaction.timestamp t) <= 5 /\
  0 <= minute_of (Transaction.timestamp t) <= 59 /\
  date_of (Transaction.timestamp t) = date_of (clock w (S (S (tick w)))) /\
  second_of (Transaction.timestamp t)
    = second_of (clock w (S (S (tick w)))) /\
  microsecond_of (Transaction.timestamp t)
    = microsecond_of (clock w (S (S (tick w)))).
Proof.
  intros H. unfold FraudPatternGenerator.generate_time_anomaly in H.
  apply bind_inv in H as (user & w1 & Hu & H).
  apply choice_lookup in Hu as [_ ->].
  apply bind_inv in H as (merchant & w2 & Hm & H).
  apply choice_lookup in Hm as [_ ->].
  apply bind_inv in H as (t0 & w3 & Hnow & H).
  unfold now in Hnow. injection Hnow as <- <-.
  apply bind_inv in H as (h & w4 & Hh & H).
  apply bind_inv in H as (m & w5 & Hmin & H).
  apply randint_range in Hh; [| lia]. apply randint_range in Hmin; [| lia].
  cbv beta zeta in H. peel H. subst t. simpl.
  destruct (replace_hour_minute_fields (clock w (S (S (tick w)))) h m)
    as (Hd & Hhour & Hminute & Hs & Hus); [lia | lia |].
  rewrite Hd, Hhour, Hminute, Hs, Hus. repeat split; lia.
Qed.

Lemma time_anomaly_window_witness :
  exists t w',
    FraudPatternGenerator.generate_time_anomaly (fraud_of pool_mix) after_mix
      = Returns t w' /\
    1 <= hour_of (Transaction.timestamp t) <= 5 /\
    0 <= minute_of (Transaction.timestamp t) <= 59 /\
    date_of (Transaction.timestamp t)
      = date_of (clock after_mix (S (S (tick after_mix)))) /\
    second_of (Transaction.timestamp t)
      = second_of (clock after_mix (S (S (tick after_mix)))) /\
    microsecond_of (Transaction.timestamp t)
      = microsecond_of (clock after_mix (S (S (tick after_mix)))).
Proof.
  eexists _, _. split; [vm_compute; reflexivity |].
  eapply (time_anomaly_window (fraud_of pool_mix) after_mix).
  vm_compute. reflexivity.
Defined.

(** *** The population *)

Lemma new_user_ok w u w' :
  TransactionGenerator.new_user w = Returns u w' -> user_ok u.
Proof.
  intros H. unfold TransactionGenerator.new_user in H.
  peel H. ranges. subst u. unfold user_ok. simpl.
  repeat match goal with H : (_ /\ _)%Q |- _ => destruct H end.
  repeat split; first [assumption | lia].
Qed.

Lemma new_merchant_ok w m w' :
  TransactionGenerator.new_merchant w = Returns m w' -> merchant_ok m.
Proof.
  intros H. unfold TransactionGenerator.new_merchant in H.
  peel H.
  match goal with
  | Hg : getitem _ _ _ = Returns ?r _ |- _ =>
      apply getitem_inv in Hg as [Hg ->]; destruct r as [lo hi]
  end.
  ranges. subst m. unfold merchant_ok. simpl.
  repeat match goal with H : (_ /\ _)%Q |- _ => destruct H end.
  split; [assumption |].
  split; [exists lo, hi; split; [assumption | reflexivity] |].
  repeat split; assumption.
Qed.

(** X13.  [_generate_users] returns as many users as asked for (none for a
    count that is not positive), each with a home inside the bounding box, a
    typical spending between 50 and 500 and an account age between 30 and
    3650 days. *)
Theorem generated_users_ok n w us w' :
  TransactionGenerator._generate_users n w = Returns us w' ->
  length us = Z.to_nat n /\ Forall user_ok us.
Proof.
  intros H. unfold TransactionGenerator._generate_users in H.
  eapply repeatM_Forall in H; [| intros ? ? ?; apply new_user_ok].
  destruct H. auto.
Qed.

Lemma generated_users_ok_witness :
  exists us w',
    TransactionGenerator._generate_users 3 world_mix = Returns us w' /\
    length us = Z.to_nat 3 /\ Forall user_ok us.
Proof.
  eexists _, _. split; [vm_compute; reflexivity |].
  eapply (generated_users_ok 3 world_mix).
  vm_compute. reflexivity.
Defined.

(** X14.  [_generate_merchants] returns as many merchants as asked for, each
    with a category of the configured list, an average transaction equal to
    the midpoint of that category's spending range, and a location inside
    the bounding box. *)
Theorem generated_merchants_ok n w ms w' :
  TransactionGenerator._generate_merchants n w = Returns ms w' ->
  length ms = Z.to_nat n /\ Forall merchant_ok ms.
Proof.
  intros H. unfold TransactionGenerator._generate_merchants in H.
  eapply repeatM_Forall in H; [| intros ? ? ?; apply new_merchant_ok].
  destruct H. auto.
Qed.

Lemma generated_merchants_ok_witness :
  exists ms w',
    TransactionGenerator._generate_merchants 3 world_mix = Returns ms w' /\
    length ms = Z.to_nat 3 /\ Forall merchant_ok ms.
Proof.
  eexists _, _. split; [vm_compute; reflexivity |].
  eapply (generated_merchants_ok 3 world_mix).
  vm_compute. reflexivity.
Defined.

(** *** The dictionary conversion *)

Lemma field_names_NoDup : NoDup field_names.
Proof.
  unfold field_names.
  repeat (apply NoDup_cons; split; [not_member |]). apply NoDup_nil_2.
Qed.

Lemma to_dict_dom iso t :
  dom (Transaction.to_dict iso t) = list_to_set field_names.
Proof.
  unfold Transaction.to_dict, Transaction.asdict.
  rewrite dom_insert_L, dom_list_to_map_L. simpl. unfold field_names.
  set_solver.
Qed.

Lemma to_dict_lookups iso t :
  Transaction.to_dict iso t !! "timestamp"
    = Some (VStr (iso (Transaction.timestamp t))) /\
  Transaction.to_dict iso t !! "fraud_type"
    = Some (match Transaction.fraud_type t with
            | Some s => VStr s
            | None => VNone
            end) /\
  Transaction.to_dict iso t !! "is_fraud"
    = Some (VBool (Transaction.is_fraud t)) /\
  Transaction.to_dict iso t !! "amount"
    = Some (VFloat (Transaction.amount t)) /\
  Transaction.to_dict iso t !! "location_lat"
    = Some (VFloat (Transaction.location_lat t)) /\
  Transaction.to_dict iso t !! "location_lon"
    = Some (VFloat (Transaction.location_lon t)) /\
  Transaction.to_dict iso t !! "transaction_id"
    = Some (VStr (Transaction.transaction_id t)) /\
  Transaction.to_dict iso t !! "user_id"
    = Some (VStr (Transaction.user_id t)) /\
  Transaction.to_dict iso t !! "card_number"
    = Some (VStr (Transaction.card_number t)) /\
  Transaction.to_dict iso t !! "merchant_id"
    = Some (VStr (Transaction.merchant_id t)) /\
  Transaction.to_dict iso t !! "merchant_name"
    = Some (VStr (Transaction.merchant_name t)) /\
  Transaction.to_dict iso t !! "merchant_category"
    = Some (VStr (Transaction.merchant_category t)) /\
  Transaction.to_dict iso t !! "currency"
    = Some (VStr (Transaction.currency t)) /\
  Transaction.to_dict iso t !! "device_id"
    = Some (VStr (Transaction.device_id t)) /\
  Transaction.to_dict iso t !! "ip_address"
    = Some (VStr (Transaction.ip_address t)).
Proof.
  split; [unfold Transaction.to_dict; apply lookup_insert_eq |].
  repeat split;
    unfold Transaction.to_dict;
    (rewrite lookup_insert_ne by discriminate); reflexivity.
Qed.

(** X15.  [to_dict] has exactly the fifteen fields of the dataclass as keys;
    it holds the ISO rendering of the timestamp under ["timestamp"], [None]
    or the tag under ["fraud_type"], and the value of the field under every
    other key. *)
Theorem to_dict_fields iso t :
  dom (Transaction.to_dict iso t) = list_to_set field_names /\
  size (Transaction.to_dict iso t) = 15%nat /\
  Transaction.to_dict iso t !! "timestamp"
    = Some (VStr (iso (Transaction.timestamp t))) /\
  Transaction.to_dict iso t !! "fraud_type"
    = Some (match Transaction.fraud_type t with
            | Some s => VStr s
            | None => VNone
            end) /\
  Transaction.to_dict iso t !! "is_fraud"
    = Some (VBool (Transaction.is_fraud t)) /\
  Transaction.to_dict iso t !! "amount"
    = Some (VFloat (Transaction.amount t)) /\
  Transaction.to_dict iso t !! "location_lat"
    = Some (VFloat (Transaction.location_lat t)) /\
  Transaction.to_dict iso t !! "location_lon"
    = Some (VFloat (Transaction.location_lon t)) /\
  Transaction.to_dict iso t !! "transaction_id"
    = Some (VStr (Transaction.transaction_id t)) /\
  Transaction.to_dict iso t !! "user_id"
    = Some (VStr (Transaction.user_id t)) /\
  Transaction.to_dict iso t !! "card_number"
    = Some (VStr (Transaction.card_number t)) /\
  Transaction.to_dict iso t !! "merchant_id"
    = Some (VStr (Transaction.merchant_id t)) /\
  Transaction.to_dict iso t !! "merchant_name"
    = Some (VStr (Transaction.merchant_name t)) /\
  Transaction.to_dict iso t !! "merchant_category"
    = Some (VStr (Transaction.merchant_category t)) /\
  Transaction.to_dict iso t !! "currency"
    = Some (VStr (Transaction.currency t)) /\
  Transaction.to_dict iso t !! "device_id"
    = Some (VStr (Transaction.device_id t)) /\
  Transaction.to_dict iso t !! "ip_address"
    = Some (VStr (Transaction.ip_address t)).
Proof.
  split; [apply to_dict_dom |].
  split; [| apply to_dict_lookups].
  rewrite <- size_dom, to_dict_dom.
  rewrite size_list_to_set by apply field_names_NoDup. reflexivity.
Qed.

Lemma VStr_inj a b : VStr a = VStr b -> a = b.
Proof. now intros [= ->]. Qed.

Lemma opt_str_inj a b : Transaction.opt_str a = Transaction.opt_str b -> a = b.
Proof. destruct a, b; simpl; intros [=]; congruence. Qed.

(** X16.  Two records have the same dictionary exactly when they agree on
    every field other than the timestamp and their timestamps have the same
    ISO rendering: the conversion loses nothing else. *)
Theorem to_dict_eq_iff iso a b :
  Transaction.to_dict iso a = Transaction.to_dict iso b <->
  iso (Transaction.timestamp a) = iso (Transaction.timestamp b) /\
  same_but_timestamp a b.
Proof.
  split.
  - intros H.
    assert (Hk : forall k,
               Transaction.to_dict iso a !! k = Transaction.to_dict iso b !! k)
      by (intros k; now rewrite H).
    destruct (to_dict_lookups iso a)
      as (A1 & A2 & A3 & A4 & A5 & A6 & A7 & A8 & A9 & A10 & A11
          & A12 & A13 & A14 & A15).
    destruct (to_dict_lookups iso b)
      as (B1 & B2 & B3 & B4 & B5 & B6 & B7 & B8 & B9 & B10 & B11
          & B12 & B13 & B14 & B15).
    pose proof (Hk "timestamp") as E1. rewrite A1, B1 in E1.
    pose proof (Hk "fraud_type") as E2. rewrite A2, B2 in E2.
    pose proof (Hk "is_fraud") as E3. rewrite A3, B3 in E3.
    pose proof (Hk "amount") as E4. rewrite A4, B4 in E4.
    pose proof (Hk "location_lat") as E5. rewrite A5, B5 in E5.
    pose proof (Hk "location_lon") as E6. rewrite A6, B6 in E6.
    pose proof (Hk "transaction_id") as E7. rewrite A7, B7 in E7.
    pose proof (Hk "user_id") as E8. rewrite A8, B8 in E8.
    pose proof (Hk "card_number") as E9. rewrite A9, B9 in E9.
    pose proof (Hk "merchant_id") as E10. rewrite A10, B10 in E10.
    pose proof (Hk "merchant_name") as E11. rewrite A11, B11 in E11.
    pose proof (Hk "merchant_category") as E12. rewrite A12, B12 in E12.
    pose proof (Hk "currency") as E13. rewrite A13, B13 in E13.
    pose proof (Hk "device_id") as E14. rewrite A14, B14 in E14.
    pose proof (Hk "ip_address") as E15. rewrite A15, B15 in E15.
    clear - E1 E2 E3 E4 E5 E6 E7 E8 E9 E10 E11 E12 E13 E14 E15.
    injection E1 as E1. injection E3 as E3. injection E4 as E4.
    injection E5 as E5. injection E6 as E6. injection E7 as E7.
    injection E8 as E8. injection E9 as E9. injection E10 as E10.
    injection E11 as E11. injection E12 as E12. injection E13 as E13.
    injection E14 as E14. injection E15 as E15.
    assert (E2' : Transaction.fraud_type a = Transaction.fraud_type b).
    { injection E2 as E2.
      destruct (Transaction.fraud_type a), (Transaction.fraud_type b);
        congruence. }
    unfold same_but_timestamp. repeat split; assumption.
  - intros [Hiso Hsame]. unfold same_but_timestamp in Hsame.
    destruct a, b. simpl in *.
    destruct Hsame as (-> & -> & -> & -> & -> & -> & -> & -> & -> & -> & ->
                       & -> & -> & ->).
    apply map_eq. intros k.
    unfold Transaction.to_dict, Transaction.asdict. simpl.
    rewrite Hiso.
    rewrite !lookup_insert.
    repeat (case_decide; [reflexivity |]). reflexivity.
Qed.

(** *** The geographic anomaly, axis by axis *)

Lemma clamp_cases lo hi x :
  (pymax lo (pymin hi x) == lo)%Q \/ (pymax lo (pymin hi x) == hi)%Q \/
  pymax lo (pymin hi x) = x.
Proof.
  unfold pymax, pymin.
  destruct (Qlt_le_dec x hi); destruct (Qlt_le_dec lo _);
    first [ right; right; reflexivity
          | left; reflexivity
          | right; left; reflexivity ].
Qed.

Lemma far_offset range home a s :
  ((10 # 1) <= a)%Q /\ (a <= (30 # 1))%Q -> s ∈ [-1; 1] ->
  edge_or_far range home
    (pymax (fst range) (pymin (snd range) (home + a * inject_Z s))).
Proof.
  intros [Ha1 Ha2] Hs. unfold edge_or_far.
  destruct (clamp_cases (fst range) (snd range) (home + a * inject_Z s))
    as [E | [E | E]]; [auto | auto |].
  rewrite E. right. right.
  apply elem_of_cons in Hs as [-> | Hs].
  - right. unfold inject_Z. split; lra.
  - apply list_elem_of_singleton in Hs. subst s.
    left. unfold inject_Z. split; lra.
Qed.

(** X17.  On each axis, the location of a record returned by the
    geographic-anomaly generator is an edge of the configured range or lies
    between 10 and 30 degrees from the home of the user the record names. *)
Theorem geographic_anomaly_edge_or_far self w t w' :
  FraudPatternGenerator.generate_geographic_anomaly self w = Returns t w' ->
  exists u, u ∈ FraudPatternGenerator.users self /\
    Transaction.user_id t = User.user_id u /\
    edge_or_far Config.US_LAT_RANGE (User.home_lat u)
      (Transaction.location_lat t) /\
    edge_or_far Config.US_LON_RANGE (User.home_lon u)
      (Transaction.location_lon t).
Proof.
  intros H. unfold FraudPatternGenerator.generate_geographic_anomaly in H.
  peel H. ranges. subst t. simpl.
  eexists. split; [eassumption |]. split; [reflexivity |].
  split; apply far_offset; assumption.
Qed.

Lemma geographic_anomaly_edge_or_far_witness :
  exists t w',
    FraudPatternGenerator.generate_geographic_anomaly (fraud_of pool_mix)
      after_mix = Returns t w' /\
    exists u, u ∈ FraudPatternGenerator.users (fraud_of pool_mix) /\
      Transaction.user_id t = User.user_id u /\
      edge_or_far Config.US_LAT_RANGE (User.home_lat u)
        (Transaction.location_lat t) /\
      edge_or_far Config.US_LON_RANGE (User.home_lon u)
        (Transaction.location_lon t).
Proof.
  eexists _, _. split; [vm_compute; reflexivity |].
  eapply (geographic_anomaly_edge_or_far (fraud_of pool_mix) after_mix).
  vm_compute. reflexivity.
Defined.

(** *** Amounts on a population the generator built *)

Lemma cents_between_positive lo hi t :
  (0 < lo)%Q -> cents_between lo hi t -> positive_cents t.
Proof.
  intros Hlo (H1 & _ & Hz). split; [lra | exact Hz].
Qed.

Lemma scaled_amount_positive us t :
  Forall user_ok us -> scaled_amount us t -> positive_cents t.
Proof.
  intros Hok (u & f & Hu & _ & Hf1 & Hf2 & Ha).
  rewrite Forall_forall in Hok.
  destruct (Hok u Hu) as (_ & _ & _ & _ & Hs & _).
  destruct (round2_close (User.typical_spending u * f)) as [Hlo _].
  unfold positive_cents. rewrite Ha. split.
  - nra.
  - unfold round2. eexists. reflexivity.
Qed.

Lemma amount_ok_positive p us t :
  Forall user_ok us -> amount_ok p us t -> positive_cents t.
Proof.
  intros Hok Ha. unfold amount_ok in Ha.
  destruct p; simpl in Ha;
    first [ now apply (scaled_amount_positive us)
          | eapply cents_between_positive; [| exact Ha]; reflexivity ].
Qed.

(** X18.  On a population the generator built, every record returned by the
    normal synthesizer, by [generate_transaction], by a pattern generator or
    by [generate_random_fraud] has a positive amount that is a whole number
    of cents. *)
Theorem built_population_amounts nu nm w0 g w1 s w txs w' :
  TransactionGenerator.init nu nm w0 = Returns g w1 ->
  emit s g (fraud_of g) w = Returns txs w' ->
  Forall positive_cents txs.
Proof.
  intros Hinit H.
  apply init_inv in Hinit as (w2 & Hus & _).
  unfold TransactionGenerator._generate_users in Hus.
  eapply repeatM_Forall in Hus; [| intros ? ? ?; apply new_user_ok].
  destruct Hus as [Hok _].
  assert (Hnormal : forall w t w',
             TransactionGenerator.generate_normal_transaction g w
               = Returns t w' -> positive_cents t).
  { intros wa t wb Ht.
    apply generate_normal_transaction_details in Ht
      as (_ & _ & _ & lo & hi & Hr & Hc).
    apply configured_range in Hr as (_ & Hlo & _).
    eapply cents_between_positive; [| exact Hc].
    change 0%Q with (inject_Z 0). rewrite <- Zlt_Qlt. lia. }
  destruct s as [| |p|]; simpl in H.
  - apply single_inv in H as (t & H & ->). apply Forall_singleton. eauto.
  - apply single_inv in H as (t & H & ->). apply Forall_singleton.
    apply generate_transaction_normal in H as (wa & H). eauto.
  - apply run_pattern_details in H.
    eapply Forall_impl; [exact H |]. cbv beta.
    intros t (_ & _ & _ & Ha). eapply amount_ok_positive; eauto.
  - apply single_inv in H as (t & H & ->). apply Forall_singleton.
    apply generate_random_fraud_details in H as (p & _ & _ & _ & _ & Ha).
    eapply amount_ok_positive; eauto.
Qed.

Lemma built_population_amounts_witness :
  exists txs w',
    emit (Fraud unusual_amount) pool_mix (fraud_of pool_mix) after_mix
      = Returns txs w' /\
    txs <> [] /\ Forall positive_cents txs.
Proof.
  eexists _, _. split; [vm_compute; reflexivity |].
  split; [discriminate |].
  eapply (built_population_amounts 3 3 world_mix pool_mix after_mix
            (Fraud unusual_amount) after_mix).
  - vm_compute. reflexivity.
  - vm_compute. reflexivity.
Defined.

(** *** Device ids and addresses of the pattern records *)

Lemma random_ip_inv w ip w' :
  FraudPatternGenerator.random_ip w = Returns ip w' ->
  exists a b c d,
    1 <= a <= 255 /\ 1 <= b <= 255 /\ 1 <= c <= 255 /\ 1 <= d <= 255 /\
    ip = str a +:+ "." +:+ str b +:+ "." +:+ str c +:+ "." +:+ str d.
Proof.
  intros H. unfold FraudPatternGenerator.random_ip in H.
  peel H. ranges. subst ip. exists x, x0, x1, x2.
  repeat split; first [lia | reflexivity].
Qed.

Ltac device_and_ip_tac :=
  match goal with
  | Hip : FraudPatternGenerator.random_ip _ = Returns _ _ |- _ =>
      apply random_ip_inv in Hip
  end;
  ranges;
  match goal with Ht : _ = ?t |- device_and_ip _ ?t => subst t end;
  split; simpl;
  [ eexists; split; [| reflexivity]; simpl; lia
  | assumption ].

Lemma generate_unusual_amount_device self w t w' :
  FraudPatternGenerator.generate_unusual_amount self w = Returns t w' ->
  device_and_ip unusual_amount t.
Proof.
  intros H. unfold FraudPatternGenerator.generate_unusual_amount in H.
  peel H. device_and_ip_tac.
Qed.

Lemma generate_geographic_anomaly_device self w t w' :
  FraudPatternGenerator.generate_geographic_anomaly self w = Returns t w' ->
  device_and_ip geographic_anomaly t.
Proof.
  intros H. unfold FraudPatternGenerator.generate_geographic_anomaly in H.
  peel H. device_and_ip_tac.
Qed.

Lemma generate_time_anomaly_device self w t w' :
  FraudPatternGenerator.generate_time_anomaly self w = Returns t w' ->
  device_and_ip time_anomaly t.
Proof.
  intros H. unfold FraudPatternGenerator.generate_time_anomaly in H.
  peel H. device_and_ip_tac.
Qed.

Lemma generate_round_amount_device self w t w' :
  FraudPatternGenerator.generate_round_amount self w = Returns t w' ->
  device_and_ip round_amount t.
Proof.
  intros H. unfold FraudPatternGenerator.generate_round_amount in H.
  peel H. device_and_ip_tac.
Qed.

Lemma generate_high_risk_category_device self w t w' :
  FraudPatternGenerator.generate_high_risk_category self w = Returns t w' ->
  device_and_ip high_risk_category t.
Proof.
  intros H. unfold FraudPatternGenerator.generate_high_risk_category in H.
  peel H.
  match goal with
  | Hpick : (match FraudPatternGenerator.high_risk_merchants self with
             | [] => _ | _ :: _ => _ end) _ = _ |- _ => clear Hpick
  end.
  device_and_ip_tac.
Qed.

Lemma high_frequency_step_device self user base w t w' :
  FraudPatternGenerator.high_frequency_step self user base w = Returns t w' ->
  device_and_ip high_frequency t.
Proof.
  intros H. unfold FraudPatternGenerator.high_frequency_step in H.
  peel H. device_and_ip_tac.
Qed.

Lemma card_testing_step_device self user base w t w' :
  FraudPatternGenerator.card_testing_step self user base w = Returns t w' ->
  device_and_ip card_testing t.
Proof.
  intros H. unfold FraudPatternGenerator.card_testing_step in H.
  peel H. device_and_ip_tac.
Qed.

(** X19.  Every pattern record has a device id made of ["DEVICE_"] and a
    number up to 9999 that is at least 5000 for the geographic anomaly, the
    time anomaly and the high-risk category and at least 1000 for the other
    patterns, and an address made of four numbers between 1 and 255 joined by
    dots. *)
Theorem pattern_device_and_ip p self w txs w' :
  run_pattern p self w = Returns txs w' -> Forall (device_and_ip p) txs.
Proof.
  intros H. destruct p; simpl in H.
  - apply single_inv in H as (t & H & ->). apply Forall_singleton.
    now apply generate_unusual_amount_device in H.
  - apply single_inv in H as (t & H & ->). apply Forall_singleton.
    now apply generate_geographic_anomaly_device in H.
  - unfold FraudPatternGenerator.generate_high_frequency in H.
    apply bind_inv in H as (user & w1 & _ & H).
    apply bind_inv in H as (n & w2 & _ & H).
    apply bind_inv in H as (base & w3 & _ & H).
    eapply repeatM_Forall in H;
      [apply H | intros ? ? ?; apply high_frequency_step_device].
  - unfold FraudPatternGenerator.generate_card_testing in H.
    apply bind_inv in H as (user & w1 & _ & H).
    apply bind_inv in H as (n & w2 & _ & H).
    apply bind_inv in H as (base & w3 & _ & H).
    eapply repeatM_Forall in H;
      [apply H | intros ? ? ?; apply card_testing_step_device].
  - apply single_inv in H as (t & H & ->). apply Forall_singleton.
    now apply generate_time_anomaly_device in H.
  - apply single_inv in H as (t & H & ->). apply Forall_singleton.
    now apply generate_round_amount_device in H.
  - apply single_inv in H as (t & H & ->). apply Forall_singleton.
    now apply generate_high_risk_category_device in H.
Qed.

Lemma pattern_device_and_ip_witness :
  exists txs w',
    run_pattern time_anomaly (fraud_of pool_mix) after_mix = Returns txs w' /\
    txs <> [] /\ Forall (device_and_ip time_anomaly) txs.
Proof.
  eexists _, _. split; [vm_compute; reflexivity |].
  split; [discriminate |].
  eapply (pattern_device_and_ip time_anomaly (fraud_of pool_mix) after_mix).
  vm_compute. reflexivity.
Defined.
